(** * Keyboard control of the lunar rover: setpoint ramping and light levels

    A shallow embedding of [KeyboardControl] from
    [LunarSimulator/PythonAPI/examples/manual_control.py]: the constructor
    [__init__], the event handler and per-frame ramping of [parse_events],
    and the loop of [game_loop] that calls it.

    Python numbers are kept abstract behind the interface [PyNum], which has
    two instances: exact rationals ([Q]), where order and arithmetic laws
    are available, and IEEE binary64 ([float], the representation of a
    Python [float]), where the model runs bit for bit like the interpreter.
    The model itself is written once, over any [PyNum].

    Properties that depend on the control flow alone are proved for every
    number type. Properties that need the order laws of addition (bounds,
    monotone decay, closed forms) are proved in exact arithmetic. Concrete
    runs, and the finite set of light levels, are also evaluated in
    binary64, which is where rounding shows. *)

From Stdlib Require Import QArith Qabs Qminmax Qround Lqa ZArith List Bool String.
From Stdlib Require Import Floats.PrimFloat Uint63.
From stdpp Require Import base option gmap.

Set Default Proof Using "Type".

(** ** Numbers *)

(** The operations [parse_events] applies to its numeric attributes:
    literals, [+], [-], [*], [/], unary minus and the comparison [<] that the
    builtins [min] and [max] are made of. *)
Class PyNum (A : Type) := {
  lit : Q -> A;
  num_add : A -> A -> A;
  num_sub : A -> A -> A;
  num_mul : A -> A -> A;
  num_div : A -> A -> A;
  num_neg : A -> A;
  num_ltb : A -> A -> bool
}.

Declare Scope py_scope.
Delimit Scope py_scope with py.
Infix "+" := num_add : py_scope.
Infix "-" := num_sub : py_scope.
Infix "*" := num_mul : py_scope.
Infix "/" := num_div : py_scope.
Notation "- x" := (num_neg x) : py_scope.
Infix "<?" := num_ltb : py_scope.

(** Python's builtin [min(a, b)] keeps its first argument unless the second
    compares strictly below it; [max(a, b)] keeps the first unless the second
    compares strictly above it. *)
Definition pymin {A} `{PyNum A} (a b : A) : A := if (b <? a)%py then b else a.
Definition pymax {A} `{PyNum A} (a b : A) : A := if (a <? b)%py then b else a.

(** Strict order on rationals as a boolean. *)
Definition Qltb (x y : Q) : bool :=
  (Qnum x * Zpos (Qden y) <? Qnum y * Zpos (Qden x))%Z.

(** Exact arithmetic. *)
#[global] Instance Q_PyNum : PyNum Q := {|
  lit := fun q => q;
  num_add := Qplus;
  num_sub := Qminus;
  num_mul := Qmult;
  num_div := Qdiv;
  num_neg := Qopp;
  num_ltb := Qltb
|}.

(** A decimal literal, held as the fraction [n/d] it denotes, read as
    binary64: the correctly rounded quotient of two integers that binary64
    holds exactly. *)
Definition float_of_Q (q : Q) : float :=
  PrimFloat.div (PrimFloat.of_uint63 (Uint63.of_Z (Qnum q)))
                (PrimFloat.of_uint63 (Uint63.of_Z (Zpos (Qden q)))).

(** IEEE binary64 arithmetic, round to nearest even. *)
#[global] Instance binary64_PyNum : PyNum float := {|
  lit := float_of_Q;
  num_add := PrimFloat.add;
  num_sub := PrimFloat.sub;
  num_mul := PrimFloat.mul;
  num_div := PrimFloat.div;
  num_neg := PrimFloat.opp;
  num_ltb := PrimFloat.ltb
|}.

(** ** The simulator's interface *)

Module carla.

(** [carla.SensorPosition]: the eight positions [KeyboardControl.__init__]
    enumerates, and [All], which [game_loop] uses once at start-up. *)
Inductive SensorPosition : Set :=
| Front | FrontLeft | FrontRight | Left | Right | BackLeft | BackRight | Back
| All.

Inductive RadiatorCoverState : Set := Open | Close.

End carla.

#[global] Instance SensorPosition_eq_dec : EqDecision carla.SensorPosition.
Proof. solve_decision. Defined.

Definition SensorPosition_index (s : carla.SensorPosition) : nat :=
  match s with
  | carla.Front => 0 | carla.FrontLeft => 1 | carla.FrontRight => 2
  | carla.Left => 3 | carla.Right => 4 | carla.BackLeft => 5
  | carla.BackRight => 6 | carla.Back => 7 | carla.All => 8
  end.

Definition SensorPosition_of_index (n : nat) : carla.SensorPosition :=
  match n with
  | 0 => carla.Front | 1 => carla.FrontLeft | 2 => carla.FrontRight
  | 3 => carla.Left | 4 => carla.Right | 5 => carla.BackLeft
  | 6 => carla.BackRight | 7 => carla.Back | _ => carla.All
  end.

#[global] Instance SensorPosition_countable : Countable carla.SensorPosition.
Proof.
  apply (inj_countable' SensorPosition_index SensorPosition_of_index).
  intros []; reflexivity.
Defined.

(** Messages handed to [world.hud.notification]. *)
Inductive Notification (A : Type) : Type :=
| RecorderIsOff | RecorderIsOn | ReplayingFile
| OpeningRadiatorCover | ClosingRadiatorCover
| TurningLight (sensor : carla.SensorPosition) (light_value : A).
Arguments RecorderIsOff {A}.
Arguments RecorderIsOn {A}.
Arguments ReplayingFile {A}.
Arguments OpeningRadiatorCover {A}.
Arguments ClosingRadiatorCover {A}.
Arguments TurningLight {A} sensor light_value.

(** The calls [parse_events] makes on [client], [world] and [world.player],
    in the order it makes them. *)
Inductive Command (A : Type) : Type :=
| world_restart
| hud_toggle_info
| toggle_camera (reverse : bool)
| toggle_recording
| stop_recorder
| start_recorder
| destroy_sensors
| replay_file
| set_sensor
| hud_notification (n : Notification A)
| set_radiator_cover_state (s : carla.RadiatorCoverState)
| set_light_state (sensor : carla.SensorPosition) (v : A)
| apply_velocity_control (linear angular : A)
| set_front_drums_target_speed (v : A)
| set_front_arm_angle (v : A)
| set_back_arm_angle (v : A)
| set_back_drums_target_speed (v : A).
Arguments world_restart {A}.
Arguments hud_toggle_info {A}.
Arguments toggle_camera {A} reverse.
Arguments toggle_recording {A}.
Arguments stop_recorder {A}.
Arguments start_recorder {A}.
Arguments destroy_sensors {A}.
Arguments replay_file {A}.
Arguments set_sensor {A}.
Arguments hud_notification {A} n.
Arguments set_radiator_cover_state {A} s.
Arguments set_light_state {A} sensor v.
Arguments apply_velocity_control {A} linear angular.
Arguments set_front_drums_target_speed {A} v.
Arguments set_front_arm_angle {A} v.
Arguments set_back_arm_angle {A} v.
Arguments set_back_drums_target_speed {A} v.

(** ** Keyboard input *)

(** The key constants the module imports from [pygame.locals]; any other key
    code is [K_other]. *)
Inductive Key : Set :=
| K_UP | K_DOWN | K_LEFT | K_RIGHT
| K_ESCAPE | K_BACKSPACE | K_F1 | K_TAB
| K_1 | K_2 | K_3 | K_4 | K_5 | K_6 | K_7 | K_8 | K_9
| K_a | K_b | K_c | K_d | K_f | K_g | K_h | K_j | K_m | K_n
| K_o | K_p | K_q | K_r | K_s | K_v | K_w | K_x
| K_other (code : Z).

#[global] Instance Key_eq_dec : EqDecision Key.
Proof. solve_decision. Defined.

(** What [pygame.event.get()] yields; [parse_events] looks at [QUIT] and
    [KEYUP] only. *)
Inductive Event : Set :=
| QUIT
| KEYUP (key : Key)
| OTHER_EVENT.

(** One iteration of the control loop as [parse_events] sees it: the queued
    events, whether [pygame.key.get_mods() & KMOD_SHIFT] is non-zero, and the
    table of held keys returned by [pygame.key.get_pressed()]. *)
Record Frame : Type := mkFrame {
  events : list Event;
  mods_shift : bool;
  keys : Key -> bool
}.

(** How a call ends: it returns, or a dictionary lookup raises. *)
Inductive Result (X : Type) : Type :=
| Return (x : X)
| KeyError.
Arguments Return {X} x.
Arguments KeyError {X}.

(** ** The controller *)

Section Model.
Context {A : Type} `{PyNum A}.
Local Open Scope py_scope.

(** The attributes [KeyboardControl.__init__] creates. *)
Record KeyboardControl : Type := mkKeyboardControl {
  linear_target_speed : A;
  angular_target_speed : A;
  front_drum_target_speed : A;
  front_arm_target_angle : A;
  back_arm_target_angle : A;
  back_drum_target_speed : A;
  _linear_speed_increase : A;
  _angular_speed_increase : A;
  _drum_speed_increase : A;
  _arm_angle_increase : A;
  _max_linear_speed : A;
  _max_angular_speed : A;
  _max_arm_angle : A;
  _max_drum_speed : A;
  _lights_increase : A;
  lights_value : gmap carla.SensorPosition A
}.

(** [KeyboardControl()]. Integer and float literals alike are read through
    [lit], so an attribute that starts as the integer [0] has the number type
    it takes after its first update. *)
Definition __init__ : KeyboardControl := {|
  linear_target_speed := lit 0;
  angular_target_speed := lit 0;
  front_drum_target_speed := lit 0;
  front_arm_target_angle := lit 0.79;
  back_arm_target_angle := lit 0.79;
  back_drum_target_speed := lit 0;
  _linear_speed_increase := lit 0.01;
  _angular_speed_increase := lit 0.01;
  _drum_speed_increase := lit 0.017;
  _arm_angle_increase := lit 0.017;
  _max_linear_speed := lit 0.5;
  _max_angular_speed := lit 0.5;
  _max_arm_angle := lit 2.36;
  _max_drum_speed := lit 0.17;
  _lights_increase := lit 10;
  lights_value :=
    <[carla.Front := lit 0.0]> (<[carla.FrontLeft := lit 0.0]> (
    <[carla.FrontRight := lit 0.0]> (<[carla.Left := lit 0.0]> (
    <[carla.Right := lit 0.0]> (<[carla.BackLeft := lit 0.0]> (
    <[carla.BackRight := lit 0.0]> (<[carla.Back := lit 0.0]> ∅)))))))
|}.

(** Attribute assignments [self.x = v]. *)
Definition set_linear_target_speed (v : A) (self : KeyboardControl) : KeyboardControl :=
  {| linear_target_speed := v;
     angular_target_speed := angular_target_speed self;
     front_drum_target_speed := front_drum_target_speed self;
     front_arm_target_angle := front_arm_target_angle self;
     back_arm_target_angle := back_arm_target_angle self;
     back_drum_target_speed := back_drum_target_speed self;
     _linear_speed_increase := _linear_speed_increase self;
     _angular_speed_increase := _angular_speed_increase self;
     _drum_speed_increase := _drum_speed_increase self;
     _arm_angle_increase := _arm_angle_increase self;
     _max_linear_speed := _max_linear_speed self;
     _max_angular_speed := _max_angular_speed self;
     _max_arm_angle := _max_arm_angle self;
     _max_drum_speed := _max_drum_speed self;
     _lights_increase := _lights_increase self;
     lights_value := lights_value self |}.

Definition set_angular_target_speed (v : A) (self : KeyboardControl) : KeyboardControl :=
  {| linear_target_speed := linear_target_speed self;
     angular_target_speed := v;
     front_drum_target_speed := front_drum_target_speed self;
     front_arm_target_angle := front_arm_target_angle self;
     back_arm_target_angle := back_arm_target_angle self;
     back_drum_target_speed := back_drum_target_speed self;
     _linear_speed_increase := _linear_speed_increase self;
     _angular_speed_increase := _angular_speed_increase self;
     _drum_speed_increase := _drum_speed_increase self;
     _arm_angle_increase := _arm_angle_increase self;
     _max_linear_speed := _max_linear_speed self;
     _max_angular_speed := _max_angular_speed self;
     _max_arm_angle := _max_arm_angle self;
     _max_drum_speed := _max_drum_speed self;
     _lights_increase := _lights_increase self;
     lights_value := lights_value self |}.

Definition set_front_drum_target_speed (v : A) (self : KeyboardControl) : KeyboardControl :=
  {| linear_target_speed := linear_target_speed self;
     angular_target_speed := angular_target_speed self;
     front_drum_target_speed := v;
     front_arm_target_angle := front_arm_target_angle self;
     back_arm_target_angle := back_arm_target_angle self;
     back_drum_target_speed := back_drum_target_speed self;
     _linear_speed_increase := _linear_speed_increase self;
     _angular_speed_increase := _angular_speed_increase self;
     _drum_speed_increase := _drum_speed_increase self;
     _arm_angle_increase := _arm_angle_increase self;
     _max_linear_speed := _max_linear_speed self;
     _max_angular_speed := _max_angular_speed self;
     _max_arm_angle := _max_arm_angle self;
     _max_drum_speed := _max_drum_speed self;
     _lights_increase := _lights_increase self;
     lights_value := lights_value self |}.

Definition set_front_arm_target_angle (v : A) (self : KeyboardControl) : KeyboardControl :=
  {| linear_target_speed := linear_target_speed self;
     angular_target_speed := angular_target_speed self;
     front_drum_target_speed := front_drum_target_speed self;
     front_arm_target_angle := v;
     back_arm_target_angle := back_arm_target_angle self;
     back_drum_target_speed := back_drum_target_speed self;
     _linear_speed_increase := _linear_speed_increase self;
     _angular_speed_increase := _angular_speed_increase self;
     _drum_speed_increase := _drum_speed_increase self;
     _arm_angle_increase := _arm_angle_increase self;
     _max_linear_speed := _max_linear_speed self;
     _max_angular_speed := _max_angular_speed self;
     _max_arm_angle := _max_arm_angle self;
     _max_drum_speed := _max_drum_speed self;
     _lights_increase := _lights_increase self;
     lights_value := lights_value self |}.

Definition set_back_arm_target_angle (v : A) (self : KeyboardControl) : KeyboardControl :=
  {| linear_target_speed := linear_target_speed self;
     angular_target_speed := angular_target_speed self;
     front_drum_target_speed := front_drum_target_speed self;
     front_arm_target_angle := front_arm_target_angle self;
     back_arm_target_angle := v;
     back_drum_target_speed := back_drum_target_speed self;
     _linear_speed_increase := _linear_speed_increase self;
     _angular_speed_increase := _angular_speed_increase self;
     _drum_speed_increase := _drum_speed_increase self;
     _arm_angle_increase := _arm_angle_increase self;
     _max_linear_speed := _max_linear_speed self;
     _max_angular_speed := _max_angular_speed self;
     _max_arm_angle := _max_arm_angle self;
     _max_drum_speed := _max_drum_speed self;
     _lights_increase := _lights_increase self;
     lights_value := lights_value self |}.

Definition set_back_drum_target_speed (v : A) (self : KeyboardControl) : KeyboardControl :=
  {| linear_target_speed := linear_target_speed self;
     angular_target_speed := angular_target_speed self;
     front_drum_target_speed := front_drum_target_speed self;
     front_arm_target_angle := front_arm_target_angle self;
     back_arm_target_angle := back_arm_target_angle self;
     back_drum_target_speed := v;
     _linear_speed_increase := _linear_speed_increase self;
     _angular_speed_increase := _angular_speed_increase self;
     _drum_speed_increase := _drum_speed_increase self;
     _arm_angle_increase := _arm_angle_increase self;
     _max_linear_speed := _max_linear_speed self;
     _max_angular_speed := _max_angular_speed self;
     _max_arm_angle := _max_arm_angle self;
     _max_drum_speed := _max_drum_speed self;
     _lights_increase := _lights_increase self;
     lights_value := lights_value self |}.

Definition set_lights_value (m : gmap carla.SensorPosition A) (self : KeyboardControl) : KeyboardControl :=
  {| linear_target_speed := linear_target_speed self;
     angular_target_speed := angular_target_speed self;
     front_drum_target_speed := front_drum_target_speed self;
     front_arm_target_angle := front_arm_target_angle self;
     back_arm_target_angle := back_arm_target_angle self;
     back_drum_target_speed := back_drum_target_speed self;
     _linear_speed_increase := _linear_speed_increase self;
     _angular_speed_increase := _angular_speed_increase self;
     _drum_speed_increase := _drum_speed_increase self;
     _arm_angle_increase := _arm_angle_increase self;
     _max_linear_speed := _max_linear_speed self;
     _max_angular_speed := _max_angular_speed self;
     _max_arm_angle := _max_arm_angle self;
     _max_drum_speed := _max_drum_speed self;
     _lights_increase := _lights_increase self;
     lights_value := m |}.

(** ** Per-frame ramping ([parse_events], after the event loop) *)

(** Linear speed: [if keys[K_UP] or keys[K_w]: ... elif keys[K_DOWN] or
    keys[K_s]: ... else: ...]. *)
Definition ramp_linear (keys : Key -> bool) (self : KeyboardControl) : KeyboardControl :=
  if keys K_UP || keys K_w then
    set_linear_target_speed
      (pymin (linear_target_speed self + _linear_speed_increase self)
             (_max_linear_speed self)) self
  else if keys K_DOWN || keys K_s then
    set_linear_target_speed
      (pymax (linear_target_speed self - _linear_speed_increase self)
             (- _max_linear_speed self)) self
  else
    set_linear_target_speed
      (pymax (linear_target_speed self - lit 2 * _linear_speed_increase self)
             (lit 0.0)) self.

(** Angular speed: [if keys[K_LEFT] or keys[K_a]: ... elif keys[K_RIGHT] or
    keys[K_d]: ... else: ...]. *)
Definition ramp_angular (keys : Key -> bool) (self : KeyboardControl) : KeyboardControl :=
  if keys K_LEFT || keys K_a then
    set_angular_target_speed
      (pymax (angular_target_speed self - _angular_speed_increase self)
             (- _max_angular_speed self)) self
  else if keys K_RIGHT || keys K_d then
    set_angular_target_speed
      (pymin (angular_target_speed self + _angular_speed_increase self)
             (_max_angular_speed self)) self
  else
    set_angular_target_speed
      (pymax (angular_target_speed self - lit 2 * _angular_speed_increase self)
             (lit 0.0)) self.

(** Front drums: [if keys[K_f]: ... elif keys[K_v]: ...]; each branch sends
    the new value to the vehicle. *)
Definition ramp_front_drum (keys : Key -> bool) (self : KeyboardControl)
  : KeyboardControl * list (Command A) :=
  if keys K_f then
    let self' := set_front_drum_target_speed
      (pymin (front_drum_target_speed self + _drum_speed_increase self)
             (_max_drum_speed self)) self in
    (self', [set_front_drums_target_speed (front_drum_target_speed self')])
  else if keys K_v then
    let self' := set_front_drum_target_speed
      (pymax (front_drum_target_speed self - _drum_speed_increase self)
             (- _max_drum_speed self)) self in
    (self', [set_front_drums_target_speed (front_drum_target_speed self')])
  else (self, []).

(** Front arm: [if keys[K_g]: ... elif keys[K_b]: ...]. *)
Definition ramp_front_arm (keys : Key -> bool) (self : KeyboardControl)
  : KeyboardControl * list (Command A) :=
  if keys K_g then
    let self' := set_front_arm_target_angle
      (pymin (front_arm_target_angle self + _arm_angle_increase self)
             (_max_arm_angle self)) self in
    (self', [set_front_arm_angle (front_arm_target_angle self')])
  else if keys K_b then
    let self' := set_front_arm_target_angle
      (pymax (front_arm_target_angle self - _arm_angle_increase self)
             (- _max_arm_angle self)) self in
    (self', [set_front_arm_angle (front_arm_target_angle self')])
  else (self, []).

(** Back arm: [if keys[K_h]: ... elif keys[K_n]: ...]. *)
Definition ramp_back_arm (keys : Key -> bool) (self : KeyboardControl)
  : KeyboardControl * list (Command A) :=
  if keys K_h then
    let self' := set_back_arm_target_angle
      (pymin (back_arm_target_angle self + _arm_angle_increase self)
             (_max_arm_angle self)) self in
    (self', [set_back_arm_angle (back_arm_target_angle self')])
  else if keys K_n then
    let self' := set_back_arm_target_angle
      (pymax (back_arm_target_angle self - _arm_angle_increase self)
             (- _max_arm_angle self)) self in
    (self', [set_back_arm_angle (back_arm_target_angle self')])
  else (self, []).

(** Back drums: [if keys[K_j]: ... elif keys[K_m]: ...]. *)
Definition ramp_back_drum (keys : Key -> bool) (self : KeyboardControl)
  : KeyboardControl * list (Command A) :=
  if keys K_j then
    let self' := set_back_drum_target_speed
      (pymin (back_drum_target_speed self + _drum_speed_increase self)
             (_max_drum_speed self)) self in
    (self', [set_back_drums_target_speed (back_drum_target_speed self')])
  else if keys K_m then
    let self' := set_back_drum_target_speed
      (pymax (back_drum_target_speed self - _drum_speed_increase self)
             (- _max_drum_speed self)) self in
    (self', [set_back_drums_target_speed (back_drum_target_speed self')])
  else (self, []).

(** Everything [parse_events] does from [keys = pygame.key.get_pressed()]
    to its end: the six statements above in source order, with the
    velocity command sent between the angular and the front-drum one. *)
Definition update_channels (keys : Key -> bool) (self : KeyboardControl)
  : KeyboardControl * list (Command A) :=
  let self1 := ramp_linear keys self in
  let self2 := ramp_angular keys self1 in
  let velocity :=
    apply_velocity_control (linear_target_speed self2) (angular_target_speed self2) in
  let '(self3, out3) := ramp_front_drum keys self2 in
  let '(self4, out4) := ramp_front_arm keys self3 in
  let '(self5, out5) := ramp_back_arm keys self4 in
  let '(self6, out6) := ramp_back_drum keys self5 in
  (self6, velocity :: out3 ++ out4 ++ out5 ++ out6).

(** ** Event handling ([parse_events], the [for event in ...] loop) *)

(** The part of [World] that [parse_events] reads and writes. *)
Record World : Type := mkWorld { recording_enabled : bool }.

(** The two objects the control loop mutates. *)
Record State : Type := mkState { controller : KeyboardControl; world : World }.

Definition _is_quit_shortcut (key : Key) : bool :=
  match key with
  | K_ESCAPE | K_q => true
  | _ => false
  end.

(** First [if]/[elif] chain of a [KEYUP] event, after the quit shortcut. *)
Definition keyup_world (shift : bool) (key : Key) (w : World) : World * list (Command A) :=
  match key with
  | K_BACKSPACE => (w, [world_restart])
  | K_F1 => (w, [hud_toggle_info])
  | K_TAB => (w, [toggle_camera shift])
  | K_r => (w, [toggle_recording])
  | K_o =>
      if recording_enabled w then
        (mkWorld false, [stop_recorder; hud_notification RecorderIsOff])
      else
        (mkWorld true, [start_recorder; hud_notification RecorderIsOn])
  | K_p =>
      (mkWorld false,
       [stop_recorder; destroy_sensors; hud_notification ReplayingFile;
        replay_file; set_sensor])
  | _ => (w, [])
  end.

(** Second chain: the radiator cover. *)
Definition keyup_radiator (key : Key) : list (Command A) :=
  match key with
  | K_x => [set_radiator_cover_state carla.Open; hud_notification OpeningRadiatorCover]
  | K_c => [set_radiator_cover_state carla.Close; hud_notification ClosingRadiatorCover]
  | _ => []
  end.

(** Third chain: the sensor a digit key selects ([sensor = None] otherwise). *)
Definition sensor_of_key (key : Key) : option carla.SensorPosition :=
  match key with
  | K_1 => Some carla.Front
  | K_2 => Some carla.FrontLeft
  | K_3 => Some carla.FrontRight
  | K_4 => Some carla.Left
  | K_5 => Some carla.Right
  | K_6 => Some carla.BackLeft
  | K_7 => Some carla.BackRight
  | K_8 => Some carla.Back
  | _ => None
  end.

(** The new percentage: [max(min(lights_value[sensor] -/+ _lights_increase,
    100.0), 0.0)]. *)
Definition light_step (shift : bool) (self : KeyboardControl) (current : A) : A :=
  if shift then pymax (pymin (current - _lights_increase self) (lit 100.0)) (lit 0.0)
  else pymax (pymin (current + _lights_increase self) (lit 100.0)) (lit 0.0).

(** [if sensor is not None: ...]: read the entry, store the new percentage,
    send it to the vehicle as a fraction and notify. *)
Definition toggle_light (shift : bool) (sensor : carla.SensorPosition)
    (self : KeyboardControl) : Result (KeyboardControl * list (Command A)) :=
  match lights_value self !! sensor with
  | None => KeyError
  | Some current =>
      let light_value := light_step shift self current in
      Return (set_lights_value (<[sensor := light_value]> (lights_value self)) self,
              [set_light_state sensor (light_value / lit 100);
               hud_notification (TurningLight sensor light_value)])
  end.

(** The body of the event loop. The boolean is [true] when the body executes
    [return True]. *)
Definition handle_event (shift : bool) (ev : Event) (st : State)
  : Result (bool * State * list (Command A)) :=
  match ev with
  | QUIT => Return (true, st, [])
  | KEYUP key =>
      if _is_quit_shortcut key then Return (true, st, [])
      else
        let '(w, out1) := keyup_world shift key (world st) in
        let out2 := keyup_radiator key in
        match sensor_of_key key with
        | None => Return (false, mkState (controller st) w, out1 ++ out2)
        | Some sensor =>
            match toggle_light shift sensor (controller st) with
            | KeyError => KeyError
            | Return (self', out3) =>
                Return (false, mkState self' w, out1 ++ out2 ++ out3)
            end
        end
  | OTHER_EVENT => Return (false, st, [])
  end.

(** [for event in pygame.event.get(): ...]. *)
Fixpoint event_loop (shift : bool) (evs : list Event) (st : State)
  : Result (bool * State * list (Command A)) :=
  match evs with
  | [] => Return (false, st, [])
  | ev :: rest =>
      match handle_event shift ev st with
      | KeyError => KeyError
      | Return (true, st', out) => Return (true, st', out)
      | Return (false, st', out) =>
          match event_loop shift rest st' with
          | KeyError => KeyError
          | Return (quit, st'', out') => Return (quit, st'', out ++ out')
          end
      end
  end.

(** [KeyboardControl.parse_events]. The boolean is the truth value of what
    the method returns: [True] from inside the event loop, [None] at the
    end. *)
Definition parse_events (fr : Frame) (st : State)
  : Result (bool * State * list (Command A)) :=
  match event_loop (mods_shift fr) (events fr) st with
  | KeyError => KeyError
  | Return (true, st', out) => Return (true, st', out)
  | Return (false, st', out) =>
      let '(self', out') := update_channels (keys fr) (controller st') in
      Return (false, mkState self' (world st'), out ++ out')
  end.

(** ** The control loop *)

(** [while True: ... if controller.parse_events(client, world, clock):
    return ...], run on the frames given. *)
Fixpoint control_loop (frames : list Frame) (st : State)
  : Result (State * list (Command A)) :=
  match frames with
  | [] => Return (st, [])
  | fr :: rest =>
      match parse_events fr st with
      | KeyError => KeyError
      | Return (true, st', out) => Return (st', out)
      | Return (false, st', out) =>
          match control_loop rest st' with
          | KeyError => KeyError
          | Return (st'', out') => Return (st'', out ++ out')
          end
      end
  end.

(** What [game_loop] sets up before the loop: a fresh controller, a world
    that is not recording, the two arm angles and all lights off. *)
Definition initial_state : State := mkState __init__ (mkWorld false).

Definition initial_commands : list (Command A) :=
  [set_front_arm_angle (front_arm_target_angle __init__);
   set_back_arm_angle (back_arm_target_angle __init__);
   set_light_state carla.All (lit 0.0)].

(** [game_loop], as far as the controller is concerned. *)
Definition game_loop (frames : list Frame) : Result (State * list (Command A)) :=
  match control_loop frames initial_state with
  | KeyError => KeyError
  | Return (st, out) => Return (st, initial_commands ++ out)
  end.

End Model.

Arguments KeyboardControl A : clear implicits.
Arguments State A : clear implicits.

(** ** Vocabulary of the specification *)

(** The six actuator channels. *)
Inductive Channel : Set :=
| LinearSpeed | AngularSpeed
| FrontDrumSpeed | FrontArmAngle | BackArmAngle | BackDrumSpeed.

(** Channels that fall back to rest when no key is held; the others keep
    their value. *)
Definition decaying (ch : Channel) : bool :=
  match ch with
  | LinearSpeed | AngularSpeed => true
  | _ => false
  end.

(** The key test that guards the [+ increase] assignment of a channel, and
    the one that guards its [- increase] assignment. *)
Definition positive_held (ch : Channel) (keys : Key -> bool) : bool :=
  match ch with
  | LinearSpeed => keys K_UP || keys K_w
  | AngularSpeed => keys K_RIGHT || keys K_d
  | FrontDrumSpeed => keys K_f
  | FrontArmAngle => keys K_g
  | BackArmAngle => keys K_h
  | BackDrumSpeed => keys K_j
  end.

Definition negative_held (ch : Channel) (keys : Key -> bool) : bool :=
  match ch with
  | LinearSpeed => keys K_DOWN || keys K_s
  | AngularSpeed => keys K_LEFT || keys K_a
  | FrontDrumSpeed => keys K_v
  | FrontArmAngle => keys K_b
  | BackArmAngle => keys K_n
  | BackDrumSpeed => keys K_m
  end.

(** Neither directional key of the channel is held. *)
Definition idle (ch : Channel) (keys : Key -> bool) : Prop :=
  positive_held ch keys = false /\ negative_held ch keys = false.

(** The table of held keys in which exactly the listed keys are down. *)
Definition held (l : list Key) : Key -> bool := fun k => bool_decide (k ∈ l).

(** A frame without events in which the listed keys are down. *)
Definition holding (l : list Key) : Frame := mkFrame [] false (held l).

(** The digit key of a light. [All] has none; [K_9], which selects nothing,
    stands in for it. *)
Definition key_of_sensor (s : carla.SensorPosition) : Key :=
  match s with
  | carla.Front => K_1 | carla.FrontLeft => K_2 | carla.FrontRight => K_3
  | carla.Left => K_4 | carla.Right => K_5 | carla.BackLeft => K_6
  | carla.BackRight => K_7 | carla.Back => K_8
  | carla.All => K_9
  end.

Section Vocabulary.
Context {A : Type} `{PyNum A}.
Local Open Scope py_scope.

(** The ramp state of a channel: [current_value], [increase_step] and
    [max_value], read off the controller's attributes; [min_value] is the
    negated maximum, as in every [max(..., -self._max_...)]. *)
Definition value (ch : Channel) (self : KeyboardControl A) : A :=
  match ch with
  | LinearSpeed => linear_target_speed self
  | AngularSpeed => angular_target_speed self
  | FrontDrumSpeed => front_drum_target_speed self
  | FrontArmAngle => front_arm_target_angle self
  | BackArmAngle => back_arm_target_angle self
  | BackDrumSpeed => back_drum_target_speed self
  end.

Definition increase_step (ch : Channel) (self : KeyboardControl A) : A :=
  match ch with
  | LinearSpeed => _linear_speed_increase self
  | AngularSpeed => _angular_speed_increase self
  | FrontDrumSpeed | BackDrumSpeed => _drum_speed_increase self
  | FrontArmAngle | BackArmAngle => _arm_angle_increase self
  end.

Definition max_value (ch : Channel) (self : KeyboardControl A) : A :=
  match ch with
  | LinearSpeed => _max_linear_speed self
  | AngularSpeed => _max_angular_speed self
  | FrontDrumSpeed | BackDrumSpeed => _max_drum_speed self
  | FrontArmAngle | BackArmAngle => _max_arm_angle self
  end.

Definition min_value (ch : Channel) (self : KeyboardControl A) : A :=
  - max_value ch self.

(** The attributes that no statement of [parse_events] assigns. *)
Definition constants (self : KeyboardControl A) : list A :=
  [_linear_speed_increase self; _angular_speed_increase self;
   _drum_speed_increase self; _arm_angle_increase self;
   _max_linear_speed self; _max_angular_speed self;
   _max_arm_angle self; _max_drum_speed self; _lights_increase self].

(** The statement of [parse_events] that ramps a channel. *)
Definition branch (ch : Channel) (keys : Key -> bool) (self : KeyboardControl A)
  : KeyboardControl A :=
  match ch with
  | LinearSpeed => ramp_linear keys self
  | AngularSpeed => ramp_angular keys self
  | FrontDrumSpeed => (ramp_front_drum keys self).1
  | FrontArmAngle => (ramp_front_arm keys self).1
  | BackArmAngle => (ramp_back_arm keys self).1
  | BackDrumSpeed => (ramp_back_drum keys self).1
  end.

(** The three assignments a branch chooses from. *)
Definition increased (ch : Channel) (self : KeyboardControl A) : A :=
  pymin (value ch self + increase_step ch self) (max_value ch self).

Definition decreased (ch : Channel) (self : KeyboardControl A) : A :=
  pymax (value ch self - increase_step ch self) (min_value ch self).

Definition decayed (ch : Channel) (self : KeyboardControl A) : A :=
  pymax (value ch self - lit 2 * increase_step ch self) (lit 0.0).

(** The controller after the ramping part of consecutive frames, given the
    table of held keys of each. *)
Definition after_frames (ks : list (Key -> bool)) (self : KeyboardControl A)
  : KeyboardControl A :=
  fold_left (fun s keys => (update_channels keys s).1) ks self.

(** The command that carries a drum or arm channel to the vehicle. *)
Definition channel_command (ch : Channel) (v : A) : list (Command A) :=
  match ch with
  | LinearSpeed | AngularSpeed => []
  | FrontDrumSpeed => [set_front_drums_target_speed v]
  | FrontArmAngle => [set_front_arm_angle v]
  | BackArmAngle => [set_back_arm_angle v]
  | BackDrumSpeed => [set_back_drums_target_speed v]
  end.

(** What the specification asks of a frame's output: the velocity command
    and the four drum and arm commands, each with the current value. *)
Definition emits_all_six (self : KeyboardControl A) (out : list (Command A)) : Prop :=
  In (apply_velocity_control (linear_target_speed self) (angular_target_speed self)) out
  /\ In (set_front_drums_target_speed (front_drum_target_speed self)) out
  /\ In (set_front_arm_angle (front_arm_target_angle self)) out
  /\ In (set_back_arm_angle (back_arm_target_angle self)) out
  /\ In (set_back_drums_target_speed (back_drum_target_speed self)) out.

(** What the ramping part of a frame sends, given the controller it leaves:
    the velocity command, then the command of each drum and arm channel one
    of whose keys is held. *)
Definition frame_commands (keys : Key -> bool) (self' : KeyboardControl A)
  : list (Command A) :=
  apply_velocity_control (linear_target_speed self') (angular_target_speed self')
  :: concat (map (fun ch =>
       if positive_held ch keys || negative_held ch keys
       then channel_command ch (value ch self') else [])
     [FrontDrumSpeed; FrontArmAngle; BackArmAngle; BackDrumSpeed]).

(** Every light of [__init__]'s table has an entry. *)
Definition lights_complete (self : KeyboardControl A) : Prop :=
  forall s, s <> carla.All -> is_Some (lights_value self !! s).

(** Every stored light percentage satisfies [P]. *)
Definition lights_all (P : A -> Prop) (self : KeyboardControl A) : Prop :=
  forall s v, lights_value self !! s = Some v -> P v.

(** What the event loop maintains: the constants of [__init__], a complete
    light table, and light percentages in [P]. *)
Definition consistent (P : A -> Prop) (self : KeyboardControl A) : Prop :=
  constants self = constants __init__
  /\ lights_complete self /\ lights_all P self.

(** The tie-break as the specification words it: with both keys of a
    channel held, the frame leaves the value of the increase branch. *)
Definition positive_branch_wins (ch : Channel) : Prop :=
  forall (keys : Key -> bool) (self : KeyboardControl A),
    positive_held ch keys = true -> negative_held ch keys = true ->
    value ch (update_channels keys self).1 = increased ch self.

(** The output contract as the specification words it: every call that
    reaches the ramping part sends all six values. *)
Definition every_frame_emits_all_six : Prop :=
  forall (fr : Frame) (st st' : State A) (out : list (Command A)),
    parse_events fr st = Return (false, st', out) ->
    emits_all_six (controller st') out.


(** The linear speed the control loop leaves after the given frames. *)
Definition linear_speed_after (frames : list Frame) : option A :=
  match game_loop frames with
  | Return (st, _) => Some (linear_target_speed (controller st))
  | KeyError => None
  end.

(** The percentage of a light after the given frames. *)
Definition light_after (frames : list Frame) (s : carla.SensorPosition) : option A :=
  match game_loop frames with
  | Return (st, _) => lights_value (controller st) !! s
  | KeyError => None
  end.

End Vocabulary.

(** A run leaves a value that satisfies [P]. *)
Definition leaves {A : Type} (o : option A) (P : A -> Prop) : Prop :=
  match o with
  | Some v => P v
  | None => False
  end.

(** The scenario of the specification: the forward key held for [n] frames,
    then every key released for [m] frames. *)
Definition forward_then_release (n m : nat) : list Frame :=
  repeat (holding [K_UP]) n ++ repeat (holding []) m.



(** The light levels of the specification: 0, 10, ..., 100. *)
Definition light_levels : list Z := [0; 10; 20; 30; 40; 50; 60; 70; 80; 90; 100]%Z.

(** * The camera, the HUD and the world around the controller *)

(** ** Exceptions, and calls that leave the program *)

(** The exceptions the camera and world code can raise. *)
Inductive Exn : Set :=
| TypeError | IndexError | AttributeError | ValueError.

(** A value, or the exception raised in its place. *)
Inductive Res (X : Type) : Type :=
| Val (x : X)
| Exc (e : Exn).
Arguments Val {X} x.
Arguments Exc {X} e.

(** [l[i]] on a Python list: negative indices count from the end. *)
Definition py_index {X : Type} (l : list X) (i : Z) : Res X :=
  let n := Z.of_nat (length l) in
  let j := if (i <? 0)%Z then (i + n)%Z else i in
  if ((0 <=? j) && (j <? n))%Z then
    match nth_error l (Z.to_nat j) with
    | Some x => Val x
    | None => Exc IndexError
    end
  else Exc IndexError.

(** A row of [CameraManager._camera_transforms]: the sensor position and the
    bone the camera is attached to. The transform and the attachment type
    are the same in every row. *)
Record CameraRow : Set := mkCameraRow {
  row_position : carla.SensorPosition;
  row_bone : string
}.

(** A row of [CameraManager.sensors]: the blueprint identifier and the
    display name. *)
Record SensorRow : Set := mkSensorRow {
  sensor_type : string;
  sensor_name : string
}.

(** Texts handed to [hud.notification] by the camera manager. *)
Inductive CameraNote : Set :=
| ChangingTo (pos : carla.SensorPosition)
| RecordingIs (on : bool).

(** An image delivered by the camera sensor. *)
Record Image : Set := mkImage {
  raw_data : list Byte.byte;
  height : nat;
  width : nat;
  frame : Z
}.

(** The calls the camera and world code makes on the simulator, on pygame
    and on the HUD. *)
Inductive Call : Set :=
| sensor_stop
| sensor_destroy
| set_camera_state (pos : carla.SensorPosition) (on : bool)
| spawn_actor (blueprint : string) (row : CameraRow)
| sensor_listen
| camera_notification (note : CameraNote)
| image_convert
| save_to_disk (frame : Z)
| set_presetid
| player_destroy
| try_spawn_actor
| world_tick.

(** A small monad for methods that mutate [self], call out, and may raise:
    the state and the calls made so far survive an exception. *)
Definition M (S X : Type) : Type := S -> Res X * S * list Call.

Definition ret {S X : Type} (x : X) : M S X := fun s => (Val x, s, []).

Definition bind {S X Y : Type} (m : M S X) (f : X -> M S Y) : M S Y :=
  fun s =>
    match m s with
    | (Exc e, s1, out1) => (Exc e, s1, out1)
    | (Val x, s1, out1) =>
        let '(r, s2, out2) := f x s1 in (r, s2, out1 ++ out2)
    end.

Definition raise {S X : Type} (e : Exn) : M S X := fun s => (Exc e, s, []).
Definition get {S : Type} : M S S := fun s => (Val s, s, []).
Definition put {S : Type} (s : S) : M S unit := fun _ => (Val tt, s, []).
Definition call {S : Type} (c : Call) : M S unit := fun s => (Val tt, s, [c]).
Definition lift {S X : Type} (r : Res X) : M S X := fun s => (r, s, []).

Declare Scope monad_scope.
Delimit Scope monad_scope with monad.
Notation "x <- m ;; k" := (bind m (fun x => k))
  (at level 100, m at next level, k at level 200, right associativity) : monad_scope.
Notation "m ;;; k" := (bind m (fun _ => k))
  (at level 100, k at level 200, right associativity) : monad_scope.

(** ** [CameraManager] *)

Module CameraManager.
Local Open Scope monad_scope.
Local Open Scope string_scope.

(** The attributes of a camera manager. [sensor] holds the row the live
    camera actor was spawned with; [surface] is the last converted image,
    indexed by column, row and colour. *)
Record t : Set := mk {
  sensor : option CameraRow;
  surface : option (list (list (list Byte.byte)));
  recording : bool;
  transform_index : Z;
  index : option Z
}.

Definition _camera_transforms : list CameraRow :=
  [mkCameraRow carla.FrontLeft "FrontLeftCamera";
   mkCameraRow carla.FrontRight "FrontRightCamera";
   mkCameraRow carla.Left "LeftCamera";
   mkCameraRow carla.Right "RightCamera";
   mkCameraRow carla.BackLeft "BackLeftCamera";
   mkCameraRow carla.BackRight "BackRightCamera";
   mkCameraRow carla.Back "BackArmCamera";
   mkCameraRow carla.Front "FrontArmCamera"].

Definition sensors : list SensorRow :=
  [mkSensorRow "sensor.camera.rgb" "Camera RGB"].

(** [CameraManager(parent_actor, hud)]. The blueprint set-up only talks to
    the simulator's blueprint library and is not part of the trace. *)
Definition __init__ : t :=
  {| sensor := None; surface := None; recording := false;
     transform_index := 1; index := None |}.

Definition set_surface (v : option (list (list (list Byte.byte)))) (self : t) : t :=
  {| sensor := sensor self; surface := v; recording := recording self;
     transform_index := transform_index self; index := index self |}.

Definition set_sensor_attr (v : option CameraRow) (self : t) : t :=
  {| sensor := v; surface := surface self; recording := recording self;
     transform_index := transform_index self; index := index self |}.

Definition set_recording (v : bool) (self : t) : t :=
  {| sensor := sensor self; surface := surface self; recording := v;
     transform_index := transform_index self; index := index self |}.

Definition set_transform_index (v : Z) (self : t) : t :=
  {| sensor := sensor self; surface := surface self; recording := recording self;
     transform_index := v; index := index self |}.

Definition set_index (v : option Z) (self : t) : t :=
  {| sensor := sensor self; surface := surface self; recording := recording self;
     transform_index := transform_index self; index := v |}.

Definition modify (f : t -> t) : M t unit := fun s => (Val tt, f s, []).

(** [set_sensor(index, force_respawn)]. The argument is [None] when the
    caller passes a [self.index] that is [None]; [None % 1] raises. *)
Definition set_sensor (idx : option Z) (force_respawn : bool) : M t unit :=
  match idx with
  | None => raise TypeError
  | Some i =>
      let index' := (i mod Z.of_nat (length sensors))%Z in
      self <- get ;;
      needs_respawn <-
        match index self with
        | None => ret true
        | Some old =>
            if force_respawn then ret true
            else
              new_row <- lift (py_index sensors index') ;;
              old_row <- lift (py_index sensors old) ;;
              ret (negb (String.eqb (sensor_name new_row) (sensor_name old_row)))
        end ;;
      (if needs_respawn : bool then
         (match sensor self with
          | Some _ =>
              call sensor_destroy ;;;
              modify (set_surface None) ;;;
              call (set_camera_state carla.All false)
          | None => ret tt
          end) ;;;
         blueprint <- lift (py_index sensors index') ;;
         row <- lift (py_index _camera_transforms (transform_index self)) ;;
         call (spawn_actor (sensor_type blueprint) row) ;;;
         modify (set_sensor_attr (Some row)) ;;;
         row' <- lift (py_index _camera_transforms (transform_index self)) ;;
         call (set_camera_state (row_position row') true) ;;;
         call (camera_notification (ChangingTo (row_position row'))) ;;;
         call sensor_listen
       else ret tt) ;;;
      modify (set_index (Some index'))
  end.

(** [toggle_camera(reverse)]. *)
Definition toggle_camera (reverse : bool) : M t unit :=
  self <- get ;;
  (if negb reverse then
     modify (set_transform_index
               ((transform_index self + 1) mod Z.of_nat (length _camera_transforms))%Z)
   else
     modify (set_transform_index
               ((transform_index self - 1) mod Z.of_nat (length _camera_transforms))%Z)) ;;;
  set_sensor (index self) true.

(** [toggle_recording()]. *)
Definition toggle_recording : M t unit :=
  self <- get ;;
  modify (set_recording (negb (recording self))) ;;;
  call (camera_notification (RecordingIs (negb (recording self)))).

(** [np.reshape(array, (height, width, depth))] of a flat array, in row-major
    order; the sizes must agree. *)
Definition reshape (h w d : nat) (data : list Byte.byte)
  : Res (list (list (list Byte.byte))) :=
  if (length data =? h * w * d)%nat then
    Val (map (fun i => map (fun j => firstn d (skipn ((i * w + j) * d) data))
                           (seq 0 w))
             (seq 0 h))
  else Exc ValueError.

(** [array.swapaxes(0, 1)] of an array of [w] columns per row. *)
Definition swapaxes (w : nat) (array : list (list (list Byte.byte)))
  : list (list (list Byte.byte)) :=
  map (fun x => map (fun row => nth x row []) array) (seq 0 w).

(** [_parse_image(weak_self, image)]: [weak_self] is [None] once the manager
    has been collected. *)
Definition _parse_image (image : Image) : M (option t) unit :=
  fun weak_self =>
    match weak_self with
    | None => (Val tt, None, [])
    | Some self =>
        let body : M t unit :=
          (match index self with
           | None => raise TypeError
           | Some i => _ <- lift (py_index sensors i) ;; call image_convert
           end) ;;;
          array <- lift (reshape (height image) (width image) 4 (raw_data image)) ;;
          let array := map (map (firstn 3)) array in
          let array := map (map (@rev Byte.byte)) array in
          modify (set_surface (Some (swapaxes (width image) array))) ;;;
          (if recording self then call (save_to_disk (frame image)) else ret tt) in
        let '(r, self', out) := body self in (r, Some self', out)
    end.

End CameraManager.

(** ** The part of [World] that owns the camera *)

Module WorldCamera.
Local Open Scope monad_scope.

(** [self.player] (is there a vehicle actor) and [self.camera_manager]. *)
Record t : Set := mk {
  player : bool;
  camera_manager : option CameraManager.t
}.

(** Run a method of [self.camera_manager]; on [None] the attribute access
    raises. *)
Definition on_camera {X : Type} (m : M CameraManager.t X) : M t X :=
  fun w =>
    match camera_manager w with
    | None => (Exc AttributeError, w, [])
    | Some cm =>
        let '(r, cm', out) := m cm in
        (r, mk (player w) (Some cm'), out)
    end.

(** [World.destroy()]: stops and destroys the camera sensor if there is one,
    then destroys the vehicle; no attribute is reset. *)
Definition destroy : M t unit :=
  cm <- on_camera get ;;
  (match CameraManager.sensor cm with
   | Some _ => call sensor_stop ;;; call sensor_destroy
   | None => ret tt
   end) ;;;
  w <- get ;;
  if player w then call player_destroy else ret tt.

(** [World.destroy_sensors()]. *)
Definition destroy_sensors : M t unit :=
  cm <- on_camera get ;;
  match CameraManager.sensor cm with
  | None => raise AttributeError
  | Some _ =>
      call sensor_destroy ;;;
      on_camera (CameraManager.modify (CameraManager.set_sensor_attr None)) ;;;
      on_camera (CameraManager.modify (CameraManager.set_index None))
  end.

(** [World.restart()]; [spawn_ok] is whether [try_spawn_actor] returns an
    actor. *)
Definition restart (spawn_ok : bool) : M t unit :=
  w <- get ;;
  let cam_index :=
    match camera_manager w with
    | Some cm => CameraManager.index cm
    | None => Some 0%Z
    end in
  let cam_pos_index :=
    match camera_manager w with
    | Some cm => CameraManager.transform_index cm
    | None => 0%Z
    end in
  call set_presetid ;;;
  (if player w then destroy else ret tt) ;;;
  call try_spawn_actor ;;;
  put (mk spawn_ok (camera_manager w)) ;;;
  (if spawn_ok then ret tt else raise ValueError) ;;;
  put (mk spawn_ok
          (Some (CameraManager.set_transform_index cam_pos_index
                   CameraManager.__init__))) ;;;
  on_camera (CameraManager.set_sensor cam_index false) ;;;
  call world_tick.

(** [World(carla_world, hud, args)], as far as the camera is concerned. *)
Definition __init__ (spawn_ok : bool) : Res unit * t * list Call :=
  restart spawn_ok (mk false None).

(** What the first [if]/[elif] chain of a [KEYUP] event in [parse_events]
    does to the camera: the calls that [keyup_world] records as
    [world_restart], [toggle_camera], [toggle_recording], and
    [destroy_sensors] ... [set_sensor]. *)
Definition keyup (shift spawn_ok : bool) (key : Key) : M t unit :=
  match key with
  | K_BACKSPACE => restart spawn_ok
  | K_TAB => on_camera (CameraManager.toggle_camera shift)
  | K_r => on_camera CameraManager.toggle_recording
  | K_p =>
      cm <- on_camera get ;;
      let current_index := CameraManager.index cm in
      destroy_sensors ;;;
      on_camera (CameraManager.set_sensor current_index false)
  | _ => ret tt
  end.

(** A key release as the camera sees it: the key, whether shift is held, and
    whether a respawn of the vehicle would succeed. *)
Record KeyUp : Set := mkKeyUp {
  up_key : Key;
  up_shift : bool;
  up_spawn_ok : bool
}.

(** Consecutive key releases; the first exception ends the run. *)
Fixpoint keyups (ks : list KeyUp) : M t unit :=
  match ks with
  | [] => ret tt
  | k :: rest => keyup (up_shift k) (up_spawn_ok k) (up_key k) ;;; keyups rest
  end.

End WorldCamera.

(** ** [FadingText] and the [HUD] *)

Module FadingText.
Section FadingText.
Context {A : Type} `{PyNum A}.
Local Open Scope py_scope.

(** [seconds_left], and the text drawn on [surface] ([None]: blank). *)
Record t : Type := mk {
  seconds_left : A;
  text : option string
}.

Definition __init__ : t := mk (lit 0) None.


(** [tick(_, clock)], with [clock.get_time()] in milliseconds; the second
    component is the argument of [surface.set_alpha]. *)
Definition tick (get_time : Z) (self : t) : t * A :=
  let delta_seconds := lit 0.001 * lit (inject_Z get_time) in
  let self' := mk (pymax (lit 0.0) (seconds_left self - delta_seconds)) (text self) in
  (self', lit 500.0 * seconds_left self').

End FadingText.
Arguments t A : clear implicits.
End FadingText.

Module HUD.
Section HUD.
Context {A : Type} `{PyNum A}.

(** The attributes the methods below use. *)
Record t : Type := mk {
  dim : Z * Z;
  _notifications : FadingText.t A;
  _show_info : bool;
  _info_text : list string
}.


Definition toggle_info (self : t) : t :=
  mk (dim self) (_notifications self) (negb (_show_info self)) (_info_text self).

(** [tick(world, clock)]: [info] is the list of lines the frame's values
    format to. *)
Definition tick (get_time : Z) (info : list string) (self : t) : t :=
  let n := (FadingText.tick get_time (_notifications self)).1 in
  if negb (_show_info self) then mk (dim self) n (_show_info self) (_info_text self)
  else mk (dim self) n (_show_info self) info.

(** What [render] draws on the display. *)
Inductive Draw : Set :=
| blit_panel
| blit_text (v_offset : Z) (item : string)
| blit_notification.

(** The loop of [render] over [_info_text]. Its items are strings, the only
    kind [tick] stores: the loop stops at the first item that would end
    below the window, and an empty string takes its line without being
    drawn. *)
Fixpoint render_lines (height v_offset : Z) (items : list string) : list Draw :=
  match items with
  | [] => []
  | item :: rest =>
      if (height <? v_offset + 18)%Z then []
      else
        (if String.eqb item "" then [] else [blit_text v_offset item])
        ++ render_lines height (v_offset + 18)%Z rest
  end.

(** [render(display)]. *)
Definition render (self : t) : list Draw :=
  (if _show_info self
   then blit_panel :: render_lines (dim self).2 4%Z (_info_text self)
   else [])
  ++ [blit_notification].

End HUD.
Arguments t A : clear implicits.
End HUD.

(** ** The end of [game_loop] *)

(** Whether the simulator's recorder runs after the given calls, given
    whether it ran before them. *)
Definition recorder_after {A : Type} (running : bool) (out : list (Command A)) : bool :=
  fold_left (fun on c =>
               match c with
               | start_recorder => true
               | stop_recorder => false
               | _ => on
               end) out running.

(** The calls of the [finally] block of [game_loop]. *)
Inductive FinalCall : Set :=
| apply_original_settings
| final_stop_recorder
| world_destroy
| pygame_quit.

(** [finally: ...], given whether [original_settings] was saved and the
    world, if it was created. *)
Definition finally_block (original_settings : bool) (w : option World) : list FinalCall :=
  (if original_settings then [apply_original_settings] else [])
  ++ (match w with
      | Some w' => if recording_enabled w' then [final_stop_recorder] else []
      | None => []
      end)
  ++ (match w with Some _ => [world_destroy] | None => [] end)
  ++ [pygame_quit].

(** ** Ranges of what is sent to the vehicle *)


(** An event that makes [parse_events] return [True]. *)
Definition quits (ev : Event) : bool :=
  match ev with
  | QUIT => true
  | KEYUP key => _is_quit_shortcut key
  | OTHER_EVENT => false
  end.

(** ** Vocabulary for the camera *)

(** The row of [_camera_transforms] at an index within the table. *)
Definition camera_row (i : Z) : CameraRow :=
  nth (Z.to_nat i) CameraManager._camera_transforms (mkCameraRow carla.All "").

(** The state the loop keeps the camera in: a vehicle, a manager whose
    sensor index is 0, a transform index within the table, and a live camera
    actor attached at the row of that index. *)
Definition camera_live (w : WorldCamera.t) : Prop :=
  WorldCamera.player w = true
  /\ exists cm,
       WorldCamera.camera_manager w = Some cm
       /\ CameraManager.index cm = Some 0%Z
       /\ (0 <= CameraManager.transform_index cm < 8)%Z
       /\ CameraManager.sensor cm
          = Some (camera_row (CameraManager.transform_index cm)).

(** A key release that asks for a respawn which fails. *)
Definition failed_respawn (k : WorldCamera.KeyUp) : bool :=
  match WorldCamera.up_key k with
  | K_BACKSPACE => negb (WorldCamera.up_spawn_ok k)
  | _ => false
  end.

(** The transform index, recording flag and surface of the world's camera
    manager. *)
Definition transform_of (w : WorldCamera.t) : Z :=
  match WorldCamera.camera_manager w with
  | Some cm => CameraManager.transform_index cm
  | None => 0
  end.

Definition recording_of (w : WorldCamera.t) : bool :=
  match WorldCamera.camera_manager w with
  | Some cm => CameraManager.recording cm
  | None => false
  end.

Definition surface_of (w : WorldCamera.t) : option (list (list (list Byte.byte))) :=
  match WorldCamera.camera_manager w with
  | Some cm => CameraManager.surface cm
  | None => None
  end.

(** The calls of a respawn at a row: spawn, switch the camera on, notify,
    listen. *)
Definition spawn_calls (i : Z) : list Call :=
  [spawn_actor "sensor.camera.rgb" (camera_row i);
   set_camera_state (row_position (camera_row i)) true;
   camera_notification (ChangingTo (row_position (camera_row i)));
   sensor_listen].

(** Releases of TAB, one per entry, with shift held where the entry is
    [true]; and the net number of forward steps they ask for. *)
Definition tab_releases (reverses : list bool) : list WorldCamera.KeyUp :=
  map (fun reverse => WorldCamera.mkKeyUp K_TAB reverse true) reverses.

Definition net_steps (reverses : list bool) : Z :=
  fold_right (fun (reverse : bool) acc => ((if reverse then -1 else 1) + acc)%Z) 0%Z reverses.

(** ** Vocabulary for the HUD *)



(** A text line drawn at the place of item [i] of the info text, within a
    window of the given height. *)
Definition line_in_window (height : Z) (info : list string) (d : HUD.Draw) : Prop :=
  match d with
  | HUD.blit_text v item =>
      item <> ""%string
      /\ (v + 18 <= height)%Z
      /\ exists i : nat, info !! i = Some item /\ v = (4 + 18 * Z.of_nat i)%Z
  | _ => True
  end.

(** ** Vocabulary for the frame's commands *)

(** Commands that set a speed or an angle of the vehicle. *)
Definition is_actuator {A : Type} (c : Command A) : bool :=
  match c with
  | apply_velocity_control _ _
  | set_front_drums_target_speed _ | set_front_arm_angle _
  | set_back_arm_angle _ | set_back_drums_target_speed _ => true
  | _ => false
  end.


(** Neither drive channel has a key held. *)
Definition drive_idle (keys : Key -> bool) : Prop :=
  idle LinearSpeed keys /\ idle AngularSpeed keys.


(** * Properties *)

(** ** Literals in binary64 *)

(** The literals of [__init__] and [parse_events], read through [lit] at
    binary64, are the doubles a Python interpreter reads from the same
    tokens (written here in hexadecimal, which is exact). *)
Lemma binary64_literals :
  lit (A:=float) 0.01 = 0x1.47ae147ae147bp-7%float
  /\ lit (A:=float) 0.017 = 0x1.16872b020c49cp-6%float
  /\ lit (A:=float) 0.79 = 0x1.947ae147ae148p-1%float
  /\ lit (A:=float) 0.5 = 0x1p-1%float
  /\ lit (A:=float) 2.36 = 0x1.2e147ae147ae1p+1%float
  /\ lit (A:=float) 0.17 = 0x1.5c28f5c28f5c3p-3%float
  /\ lit (A:=float) 0.3 = 0x1.3333333333333p-2%float
  /\ lit (A:=float) 0.0 = PrimFloat.zero
  /\ lit (A:=float) 0 = PrimFloat.zero
  /\ lit (A:=float) 2 = 0x1p+1%float
  /\ lit (A:=float) 10 = 0x1.4p+3%float
  /\ lit (A:=float) 100.0 = 0x1.9p+6%float.
Proof. repeat split; vm_compute; reflexivity. Qed.

(** ** What a branch touches (any number type) *)

Ltac key_cases keys :=
  repeat match goal with
  | |- context [if (keys ?k || keys ?k') then _ else _] =>
      destruct (keys k || keys k') eqn:?
  | |- context [if keys ?k then _ else _] => destruct (keys k) eqn:?
  end.


Ltac unfold_branch :=
  unfold branch, ramp_linear, ramp_angular, ramp_front_drum, ramp_front_arm,
    ramp_back_arm, ramp_back_drum.

Section Structure.
Context {A : Type} `{PyNum A}.
Local Open Scope py_scope.

Lemma branch_constants (ch : Channel) keys (self : KeyboardControl A) :
  constants (branch ch keys self) = constants self.
Proof. destruct ch; unfold_branch; key_cases keys; reflexivity. Qed.

Lemma branch_lights (ch : Channel) keys (self : KeyboardControl A) :
  lights_value (branch ch keys self) = lights_value self.
Proof. destruct ch; unfold_branch; key_cases keys; reflexivity. Qed.

Lemma branch_other (ch ch' : Channel) keys (self : KeyboardControl A) :
  ch <> ch' -> value ch' (branch ch keys self) = value ch' self.
Proof.
  intros Hne.
  destruct ch, ch'; try congruence; unfold_branch; key_cases keys; reflexivity.
Qed.

(** The value a branch leaves in its own channel: the angular branch tests
    its decreasing keys first, the five others their increasing key. *)
Lemma branch_value (ch : Channel) keys (self : KeyboardControl A) :
  value ch (branch ch keys self) =
    match ch with
    | AngularSpeed =>
        if negative_held ch keys then decreased ch self
        else if positive_held ch keys then increased ch self
        else decayed ch self
    | _ =>
        if positive_held ch keys then increased ch self
        else if negative_held ch keys then decreased ch self
        else if decaying ch then decayed ch self
        else value ch self
    end.
Proof.
  destruct ch; unfold_branch; unfold positive_held, negative_held;
    key_cases keys; reflexivity.
Qed.

(** A branch that finds none of its keys held returns the controller it was
    given. *)
Lemma branch_idle (ch : Channel) keys (self : KeyboardControl A) :
  decaying ch = false ->
  positive_held ch keys = false -> negative_held ch keys = false ->
  branch ch keys self = self.
Proof.
  destruct ch; try discriminate; intros _; cbn; intros Hp Hn;
    unfold_branch; rewrite Hp, Hn; reflexivity.
Qed.

Lemma constants_steps (ch : Channel) (s1 s2 : KeyboardControl A) :
  constants s1 = constants s2 ->
  increase_step ch s1 = increase_step ch s2 /\ max_value ch s1 = max_value ch s2.
Proof.
  unfold constants; intros Hc; injection Hc; intros.
  destruct ch; cbn; split; congruence.
Qed.

Lemma branch_value_congr (ch : Channel) keys (s1 s2 : KeyboardControl A) :
  value ch s1 = value ch s2 -> constants s1 = constants s2 ->
  value ch (branch ch keys s1) = value ch (branch ch keys s2).
Proof.
  intros Hv Hc. destruct (constants_steps ch s1 s2 Hc) as [Hi Hm].
  rewrite !branch_value.
  unfold increased, decreased, decayed, min_value. rewrite Hv, Hi, Hm.
  reflexivity.
Qed.

(** The ramping part of a frame is the six branches in source order. *)
Lemma update_channels_branches keys (self : KeyboardControl A) :
  (update_channels keys self).1 =
    branch BackDrumSpeed keys (branch BackArmAngle keys (branch FrontArmAngle keys
      (branch FrontDrumSpeed keys (branch AngularSpeed keys
        (branch LinearSpeed keys self))))).
Proof.
  unfold update_channels, branch.
  destruct (ramp_front_drum keys _) as [s3 o3] eqn:E3; cbn [fst].
  destruct (ramp_front_arm keys s3) as [s4 o4] eqn:E4; cbn [fst].
  destruct (ramp_back_arm keys s4) as [s5 o5] eqn:E5; cbn [fst].
  destruct (ramp_back_drum keys s5) as [s6 o6] eqn:E6; reflexivity.
Qed.

Lemma update_channels_constants keys (self : KeyboardControl A) :
  constants (update_channels keys self).1 = constants self.
Proof. rewrite update_channels_branches, !branch_constants. reflexivity. Qed.

Lemma update_channels_lights keys (self : KeyboardControl A) :
  lights_value (update_channels keys self).1 = lights_value self.
Proof. rewrite update_channels_branches, !branch_lights. reflexivity. Qed.

(** Within a frame each channel is changed by its own branch only. *)
Lemma update_channels_value (ch : Channel) keys (self : KeyboardControl A) :
  value ch (update_channels keys self).1 = value ch (branch ch keys self).
Proof.
  rewrite update_channels_branches.
  destruct ch;
    repeat (rewrite (branch_other _ _ keys) by discriminate);
    try reflexivity;
    apply branch_value_congr;
    repeat (rewrite (branch_other _ _ keys) by discriminate);
    rewrite ?branch_constants; reflexivity.
Qed.




End Structure.

(** ** What a frame sends and what events touch (any number type) *)

Section Frames.
Context {A : Type} `{PyNum A}.
Local Open Scope py_scope.

Lemma update_channels_commands keys (self : KeyboardControl A) :
  (update_channels keys self).2 = frame_commands keys (update_channels keys self).1.
Proof.
  unfold frame_commands, update_channels, ramp_front_drum, ramp_front_arm,
    ramp_back_arm, ramp_back_drum, positive_held, negative_held.
  cbn [map concat].
  destruct (keys K_f); [|destruct (keys K_v)];
    (destruct (keys K_g); [|destruct (keys K_b)]);
    (destruct (keys K_h); [|destruct (keys K_n)]);
    (destruct (keys K_j); [|destruct (keys K_m)]); reflexivity.
Qed.

Lemma sensor_of_key_lit key s : sensor_of_key key = Some s -> s <> carla.All.
Proof. destruct key; cbn; intros [= <-]; discriminate. Qed.

Lemma sensor_of_key_of_sensor s : s <> carla.All -> sensor_of_key (key_of_sensor s) = Some s.
Proof. destruct s; cbn; congruence. Qed.

Lemma light_step_constants shift (s1 s2 : KeyboardControl A) v :
  constants s1 = constants s2 -> light_step shift s1 v = light_step shift s2 v.
Proof.
  unfold constants, light_step; intros Hc; injection Hc; intros.
  destruct shift; congruence.
Qed.

Lemma toggle_light_stored shift sensor (self : KeyboardControl A) v :
  lights_value self !! sensor = Some v ->
  toggle_light shift sensor self =
    Return (set_lights_value (<[sensor := light_step shift self v]> (lights_value self)) self,
            [set_light_state sensor (light_step shift self v / lit 100);
             hud_notification (TurningLight sensor (light_step shift self v))]).
Proof. unfold toggle_light; intros ->; reflexivity. Qed.

Lemma set_lights_value_consistent (P : A -> Prop) (self : KeyboardControl A) s v :
  consistent P self -> P v ->
  consistent P (set_lights_value (<[s := v]> (lights_value self)) self).
Proof.
  intros (Hc & Hl & Hp) Hv. split; [exact Hc|]. split.
  - intros s' Hs'. cbn. destruct (decide (s = s')) as [->|Hne].
    + rewrite lookup_insert_eq. eauto.
    + rewrite lookup_insert_ne by exact Hne. apply Hl, Hs'.
  - intros s' v'. cbn. destruct (decide (s = s')) as [->|Hne].
    + rewrite lookup_insert_eq. intros [= <-]. exact Hv.
    + rewrite lookup_insert_ne by exact Hne. apply Hp.
Qed.

Section Invariant.
Variable P : A -> Prop.
Hypothesis P_closed : forall shift v, P v -> P (light_step shift __init__ v).

Lemma handle_event_consistent shift ev (st : State A) :
  consistent P (controller st) ->
  exists quit st' out,
    handle_event shift ev st = Return (quit, st', out)
    /\ consistent P (controller st')
    /\ forall ch, value ch (controller st') = value ch (controller st).
Proof using P_closed.
  intros Hinv. destruct ev as [|key|]; cbn.
  - eauto 6.
  - destruct (_is_quit_shortcut key); [eauto 6|].
    destruct (keyup_world shift key (world st)) as [w out1].
    destruct (sensor_of_key key) as [s|] eqn:Hs; [|cbn; eauto 6].
    destruct Hinv as (Hc & Hl & Hp).
    destruct (Hl s (sensor_of_key_lit _ _ Hs)) as [v Hv].
    rewrite (toggle_light_stored _ _ _ _ Hv).
    do 3 eexists. split; [reflexivity|]. split.
    + apply set_lights_value_consistent; [by repeat split|].
      rewrite (light_step_constants _ _ _ _ Hc). apply P_closed, (Hp s v Hv).
    + intros []; reflexivity.
  - eauto 6.
Qed.

Lemma event_loop_consistent shift evs (st : State A) :
  consistent P (controller st) ->
  exists quit st' out,
    event_loop shift evs st = Return (quit, st', out)
    /\ consistent P (controller st')
    /\ forall ch, value ch (controller st') = value ch (controller st).
Proof using P_closed.
  revert st; induction evs as [|ev evs IH]; intros st Hinv; cbn.
  - eauto 6.
  - destruct (handle_event_consistent shift ev st Hinv)
      as (quit & st1 & out1 & -> & Hinv1 & Hv1).
    destruct quit; [eauto 6|].
    destruct (IH st1 Hinv1) as (quit & st2 & out2 & -> & Hinv2 & Hv2).
    do 3 eexists. split; [reflexivity|]. split; [exact Hinv2|].
    intros ch. rewrite Hv2. apply Hv1.
Qed.

(** A call of [parse_events] returns; it keeps the constants and the light
    table consistent; a call that returns [True] leaves the channels alone,
    and any other call leaves in each channel what that channel's branch
    computes from the value the call found. *)
Lemma parse_events_consistent fr (st : State A) :
  consistent P (controller st) ->
  exists quit st' out,
    parse_events fr st = Return (quit, st', out)
    /\ consistent P (controller st')
    /\ forall ch, value ch (controller st') =
         if quit then value ch (controller st)
         else value ch (branch ch (keys fr) (controller st)).
Proof using P_closed.
  intros Hinv. unfold parse_events. pose proof Hinv as (Hc0 & _).
  destruct (event_loop_consistent (mods_shift fr) (events fr) st Hinv)
    as (quit & st1 & out1 & -> & (Hc & Hl & Hp) & Hv1).
  destruct quit; [do 3 eexists; split; [reflexivity|]; by repeat split|].
  destruct (update_channels (keys fr) (controller st1)) as [self' out'] eqn:Hu.
  assert (self' = (update_channels (keys fr) (controller st1)).1) as -> by by rewrite Hu.
  do 3 eexists. split; [reflexivity|]. cbn [controller]. split.
  - split; [by rewrite update_channels_constants|]. split.
    + intros s Hs. rewrite update_channels_lights. by apply Hl.
    + intros s v. rewrite update_channels_lights. apply Hp.
  - intros ch. rewrite update_channels_value. apply branch_value_congr.
    + apply Hv1.
    + by rewrite Hc, Hc0.
Qed.

End Invariant.

Lemma control_loop_invariant (J : State A -> Prop) :
  (forall fr st, J st ->
     exists quit st' out, parse_events fr st = Return (quit, st', out) /\ J st') ->
  forall frames st, J st ->
    exists st' out, control_loop frames st = Return (st', out) /\ J st'.
Proof.
  intros Hstep frames; induction frames as [|fr frames IH]; intros st HJ; cbn.
  - eauto.
  - destruct (Hstep fr st HJ) as (quit & st1 & out1 & -> & HJ1).
    destruct quit; [eauto|].
    destruct (IH st1 HJ1) as (st2 & out2 & -> & HJ2). eauto.
Qed.

Lemma init_lights (s : carla.SensorPosition) :
  lights_value (__init__ (A:=A)) !! s = if decide (s = carla.All) then None else Some (lit 0.0).
Proof. destruct s; reflexivity. Qed.

Lemma init_consistent (P : A -> Prop) : P (lit 0.0) -> consistent P __init__.
Proof.
  intros HP. split; [reflexivity|]. split.
  - intros s Hs. rewrite init_lights. destruct (decide _); [done|eauto].
  - intros s v. rewrite init_lights. destruct (decide _); [done|].
    intros [= <-]. exact HP.
Qed.

End Frames.

(** ** Exact arithmetic *)

Lemma Qltb_lt (x y : Q) : Qltb x y = true <-> (x < y)%Q.
Proof. unfold Qltb, Qlt. apply Z.ltb_lt. Qed.

Lemma Qltb_ge (x y : Q) : Qltb x y = false <-> (y <= x)%Q.
Proof. unfold Qltb, Qle. apply Z.ltb_ge. Qed.

Ltac exact_ops :=
  cbn [lit num_add num_sub num_mul num_div num_neg num_ltb Q_PyNum] in *.

Ltac py_cases :=
  unfold pymin, pymax; exact_ops;
  repeat match goal with
  | |- context [Qltb ?a ?b] =>
      let E := fresh "E" in
      destruct (Qltb a b) eqn:E; [apply Qltb_lt in E | apply Qltb_ge in E]
  end.







(** ** Tie-break (C2) *)

(** C2, as stated, fails on the angular speed: with a left and a right key
    held, a fresh controller goes to -0.01, not to the 0.01 of the increase
    branch. Evaluated in binary64. *)
Lemma C2_angular_prefers_decrease :
  ~ (forall ch, positive_branch_wins (A:=float) ch).
Proof.
  intros Hall.
  specialize (Hall AngularSpeed (held [K_LEFT; K_RIGHT]) __init__ eq_refl eq_refl).
  apply (f_equal (fun x => PrimFloat.ltb x PrimFloat.zero)) in Hall.
  vm_compute in Hall. discriminate.
Qed.

(** C2, amended. Over any number type, the value a frame leaves in a
    channel is decided by the channel's keys alone: for the linear speed, the
    drum speeds and the arm angles the increase key is tested first, so with
    both keys held the increase branch wins; for the angular speed the
    decrease keys (left) are tested first, so with both held the decrease
    branch wins. *)
Theorem C2_tie_break {A : Type} `{PyNum A} (keys : Key -> bool) (self : KeyboardControl A) :
  (forall ch,
     value ch (update_channels keys self).1 =
       match ch with
       | AngularSpeed =>
           if negative_held ch keys then decreased ch self
           else if positive_held ch keys then increased ch self
           else decayed ch self
       | _ =>
           if positive_held ch keys then increased ch self
           else if negative_held ch keys then decreased ch self
           else if decaying ch then decayed ch self
           else value ch self
       end)
  /\ (forall ch, ch <> AngularSpeed ->
        positive_held ch keys = true -> negative_held ch keys = true ->
        value ch (update_channels keys self).1 = increased ch self)
  /\ (positive_held AngularSpeed keys = true -> negative_held AngularSpeed keys = true ->
        value AngularSpeed (update_channels keys self).1 = decreased AngularSpeed self).
Proof.
  assert (Htable := fun ch => eq_trans (update_channels_value ch keys self)
                                        (branch_value ch keys self)).
  split; [exact Htable|]. split.
  - intros ch Hne Hp _. rewrite Htable, Hp. destruct ch; congruence.
  - intros _ Hn. rewrite Htable, Hn. reflexivity.
Qed.

(** ** Commands sent each frame (C3) *)

(** C3, as stated, fails: a frame of a fresh controller with no key held
    sends the velocity command and nothing else, so no drum or arm command
    goes out. Evaluated in binary64. *)
Lemma C3_idle_frame_sends_velocity_only :
  ~ every_frame_emits_all_six (A:=float).
Proof.
  intros Hall.
  destruct (Hall (holding []) initial_state
              (mkState (update_channels (held []) __init__).1 (mkWorld false))
              [apply_velocity_control PrimFloat.zero PrimFloat.zero])
    as (_ & Hdrum & _).
  - vm_compute. reflexivity.
  - destruct Hdrum as [Hd|[]]. discriminate Hd.
Qed.

(** C3, amended. Over any number type, the ramping part of a frame sends
    the velocity command with the updated linear and angular speed whatever
    keys are held, followed, in source order, by the command of each drum or
    arm channel that has one of its keys held, carrying the updated value; a
    drum or arm channel with no key held sends nothing. A call of
    [parse_events] that does not return [True] sends exactly this after what
    its events sent. *)
Theorem C3_frame_commands {A : Type} `{PyNum A} (fr : Frame) (st : State A) :
  (update_channels (keys fr) (controller st)).2
    = frame_commands (keys fr) (update_channels (keys fr) (controller st)).1
  /\ match parse_events fr st with
     | Return (false, st', out) =>
         exists st1 out1,
           event_loop (mods_shift fr) (events fr) st = Return (false, st1, out1)
           /\ out = out1 ++ frame_commands (keys fr) (controller st')
     | _ => True
     end.
Proof.
  split; [apply update_channels_commands|].
  unfold parse_events.
  destruct (event_loop (mods_shift fr) (events fr) st) as [[[quit st1] out1]|]; [|exact I].
  destruct quit; [exact I|].
  pose proof (update_channels_commands (keys fr) (controller st1)) as Hout.
  destruct (update_channels (keys fr) (controller st1)) as [self' out'].
  cbn in Hout. subst out'. exists st1, out1. split; reflexivity.
Qed.

(** ** Decay of the speed channels (C4, C10) *)

(** A frame without a directional key assigns the decay expression. *)
Lemma idle_frame_decays {A : Type} `{PyNum A} (ch : Channel) keys (self : KeyboardControl A) :
  decaying ch = true -> idle ch keys ->
  value ch (update_channels keys self).1 = decayed ch self.
Proof.
  intros Hd [Hp Hn]. rewrite update_channels_value, branch_value, Hp, Hn, Hd.
  destruct ch; reflexivity.
Qed.







(** ** Drum and arm channels keep their value (C5) *)

Lemma idle_frame_keeps {A : Type} `{PyNum A} (ch : Channel) keys (self : KeyboardControl A) :
  decaying ch = false -> idle ch keys ->
  value ch (update_channels keys self).1 = value ch self.
Proof.
  intros Hd [Hp Hn]. rewrite update_channels_value, branch_idle; auto.
Qed.

(** C5. Over any number type, for the front and back drum speed and the
    front and back arm angle: frames in which neither key of the channel is
    held leave the channel's value as it was, however many they are; on such
    a frame the channel's branch returns the controller unchanged; and on
    any frame that branch leaves alone the other five channels, the
    constants and the light table. *)
Theorem C5_released_channel_holds {A : Type} `{PyNum A} (ch : Channel)
    (ks : list (Key -> bool)) (self : KeyboardControl A) :
  decaying ch = false ->
  Forall (idle ch) ks ->
  value ch (after_frames ks self) = value ch self
  /\ (forall keys, idle ch keys -> branch ch keys self = self)
  /\ (forall keys ch', ch' <> ch -> value ch' (branch ch keys self) = value ch' self)
  /\ (forall keys, constants (branch ch keys self) = constants self
                   /\ lights_value (branch ch keys self) = lights_value self).
Proof.
  intros Hd Hks. split; [|split; [|split]].
  - revert self. induction Hks as [|keys ks Hk _ IH]; intros self; [reflexivity|].
    change (after_frames (keys :: ks) self)
      with (after_frames ks (update_channels keys self).1).
    rewrite IH. by apply idle_frame_keeps.
  - intros keys [Hp Hn]. by apply branch_idle.
  - intros keys ch' Hne. apply branch_other. congruence.
  - intros keys. split; [apply branch_constants | apply branch_lights].
Qed.

(** The front arm of a fresh controller, in binary64, over three frames that
    hold other keys: it stays at its initial 0.79. *)
Lemma C5_released_channel_holds_witness :
  let ks := [held [K_UP; K_f]; held []; held [K_LEFT; K_h; K_m]] in
  decaying FrontArmAngle = false
  /\ Forall (idle FrontArmAngle) ks
  /\ value FrontArmAngle (after_frames ks (__init__ (A:=float)))
     = value FrontArmAngle (__init__ (A:=float)).
Proof.
  intros ks.
  assert (H1 : decaying FrontArmAngle = false) by reflexivity.
  assert (H2 : Forall (idle FrontArmAngle) ks) by (repeat constructor).
  split; [exact H1|]. split; [exact H2|].
  exact (proj1 (C5_released_channel_holds FrontArmAngle ks __init__ H1 H2)).
Defined.

(** ** Ramping up with the positive key held (C6) *)









(** ** The forward-then-release scenario (C7) *)

(** C7, as stated, fails at its last figure: in binary64, sixty frames
    forward and ten frames released do not leave the linear speed at 0.3. *)
Lemma C7_release_ends_below_three_tenths :
  linear_speed_after (A:=float) (forward_then_release 60 10) <> Some (lit 0.3).
Proof.
  intros Heq.
  apply (f_equal (fun o => match o with
                           | Some x => PrimFloat.eqb x (lit 0.3)
                           | None => true
                           end)) in Heq.
  vm_compute in Heq. discriminate Heq.
Qed.

(** C7, amended. A fresh controller with the forward key held reaches the
    clamp 0.5 first at frame 50 and stays at exactly 0.5 through frame 60,
    in binary64 as in exact arithmetic. Ten released frames then lower the
    value on every frame: in exact arithmetic by 0.02 a frame, ending at
    0.3; in binary64, where each subtraction rounds, ending at
    0x1.3333333333330p-2 (0.2999999999999998), strictly below the binary64
    number 0.3. *)
Theorem C7_forward_then_release :
  (forall n, (n < 50)%nat ->
     leaves (linear_speed_after (A:=float) (forward_then_release n 0))
            (fun v => PrimFloat.ltb v (lit 0.5) = true))
  /\ (forall n, (50 <= n <= 60)%nat ->
     linear_speed_after (A:=float) (forward_then_release n 0) = Some (lit 0.5))
  /\ (forall m, (m < 10)%nat ->
     leaves (linear_speed_after (A:=float) (forward_then_release 60 m)) (fun v =>
     leaves (linear_speed_after (A:=float) (forward_then_release 60 (S m))) (fun v' =>
       PrimFloat.ltb v' v = true)))
  /\ linear_speed_after (A:=float) (forward_then_release 60 10)
       = Some 0x1.3333333333330p-2%float
  /\ PrimFloat.ltb 0x1.3333333333330p-2 (lit 0.3) = true
  /\ (forall n, (n < 50)%nat ->
     leaves (linear_speed_after (A:=Q) (forward_then_release n 0))
            (fun v => v == inject_Z (Z.of_nat n) * 0.01 /\ v < 0.5)%Q)
  /\ (forall n, (50 <= n <= 60)%nat ->
     leaves (linear_speed_after (A:=Q) (forward_then_release n 0))
            (fun v => v == 0.5)%Q)
  /\ (forall m, (m <= 10)%nat ->
     leaves (linear_speed_after (A:=Q) (forward_then_release 60 m))
            (fun v => v == 0.5 - inject_Z (Z.of_nat m) * 0.02)%Q)
  /\ leaves (linear_speed_after (A:=Q) (forward_then_release 60 10))
            (fun v => v == 0.3)%Q.
Proof.
  split; [|split; [|split; [|split; [|split; [|split; [|split; [|split]]]]]]].
  - intros n Hn.
    do 50 (destruct n as [|n]; [vm_compute; reflexivity|]). exfalso; lia.
  - intros n Hn.
    do 61 (destruct n as [|n]; [first [exfalso; lia | vm_compute; reflexivity]|]).
    exfalso; lia.
  - intros m Hm.
    do 10 (destruct m as [|m]; [vm_compute; reflexivity|]). exfalso; lia.
  - vm_compute. reflexivity.
  - vm_compute. reflexivity.
  - intros n Hn.
    do 50 (destruct n as [|n]; [vm_compute; split; reflexivity|]). exfalso; lia.
  - intros n Hn.
    do 61 (destruct n as [|n]; [first [exfalso; lia | vm_compute; reflexivity]|]).
    exfalso; lia.
  - intros m Hm.
    do 11 (destruct m as [|m]; [vm_compute; reflexivity|]). exfalso; lia.
  - vm_compute. reflexivity.
Qed.

(** ** Light levels (C8, C9) *)





(** A property of light percentages that holds of [0.0] and is kept by both
    directions of [light_step] holds in every state the loop reaches, and
    the loop never fails on a lookup. *)
Lemma lights_invariant {A : Type} `{PyNum A} (P : A -> Prop) :
  P (lit 0.0) ->
  (forall shift v, P v -> P (light_step shift __init__ v)) ->
  forall frames, exists st out,
    game_loop frames = Return (st, out)
    /\ lights_complete (controller st)
    /\ lights_all P (controller st).
Proof.
  intros H0 Hstep frames. unfold game_loop.
  destruct (control_loop_invariant (fun st => consistent P (controller st))
              (fun fr st Hinv =>
                 match parse_events_consistent P Hstep fr st Hinv with
                 | ex_intro _ quit (ex_intro _ st' (ex_intro _ out (conj Hp (conj Hinv' _)))) =>
                     ex_intro _ quit (ex_intro _ st' (ex_intro _ out (conj Hp Hinv')))
                 end)
              frames initial_state (init_consistent P H0))
    as (st & out & -> & _ & Hl & Hp).
  eauto.
Qed.

Ltac in_levels := cbn [In light_levels]; repeat first [left; reflexivity | right].

Ltac some_level tac :=
  first [ exists 0%Z; split; [in_levels | tac]
        | exists 10%Z; split; [in_levels | tac]
        | exists 20%Z; split; [in_levels | tac]
        | exists 30%Z; split; [in_levels | tac]
        | exists 40%Z; split; [in_levels | tac]
        | exists 50%Z; split; [in_levels | tac]
        | exists 60%Z; split; [in_levels | tac]
        | exists 70%Z; split; [in_levels | tac]
        | exists 80%Z; split; [in_levels | tac]
        | exists 90%Z; split; [in_levels | tac]
        | exists 100%Z; split; [in_levels | tac] ].

Lemma light_levels_closed_exact shift (v : Q) :
  (exists n, In n light_levels /\ (v == inject_Z n)%Q) ->
  exists n, In n light_levels /\ (light_step shift __init__ v == inject_Z n)%Q.
Proof.
  intros (n & Hin & Hv). unfold light_step. cbn [_lights_increase __init__].
  cbn [In light_levels] in Hin.
  repeat (destruct Hin as [<-|Hin]); [..|destruct Hin];
    unfold inject_Z in Hv; destruct shift; py_cases;
    first [exfalso; lra | some_level ltac:(unfold inject_Z; lra)].
Qed.

Lemma light_levels_closed_binary64 shift (v : float) :
  (exists n, In n light_levels /\ v = lit (inject_Z n)) ->
  exists n, In n light_levels /\ light_step shift __init__ v = lit (inject_Z n).
Proof.
  intros (n & Hin & ->). cbn [In light_levels] in Hin.
  repeat (destruct Hin as [<-|Hin]); [..|destruct Hin];
    destruct shift; some_level ltac:(vm_compute; reflexivity).
Qed.

(** C9. Whatever frames the control loop is run on, it returns, each of the
    eight lights has a stored percentage, and every stored percentage is one
    of 0, 10, 20, ..., 100: up to equality of fractions in exact arithmetic,
    and as the very binary64 number in binary64, where these sums and
    differences are exact. *)
Theorem C9_light_levels (frames : list Frame) :
  (exists st out,
     game_loop (A:=Q) frames = Return (st, out)
     /\ (forall s, s <> carla.All -> is_Some (lights_value (controller st) !! s))
     /\ forall s v, lights_value (controller st) !! s = Some v ->
          exists n, In n light_levels /\ (v == inject_Z n)%Q)
  /\ (exists st out,
     game_loop (A:=float) frames = Return (st, out)
     /\ (forall s, s <> carla.All -> is_Some (lights_value (controller st) !! s))
     /\ forall s v, lights_value (controller st) !! s = Some v ->
          exists n, In n light_levels /\ v = lit (inject_Z n)).
Proof.
  split.
  - apply (lights_invariant (fun v : Q => exists n, In n light_levels /\ (v == inject_Z n)%Q)).
    + exists 0%Z. split; [in_levels | reflexivity].
    + intros shift v. apply light_levels_closed_exact.
  - apply (lights_invariant (fun v : float => exists n, In n light_levels /\ v = lit (inject_Z n))).
    + exists 0%Z. split; [in_levels | vm_compute; reflexivity].
    + intros shift v. apply light_levels_closed_binary64.
Qed.

(** * More of the program *)

(** ** Camera selection *)

Ltac row_cases i :=
  let Hc := fresh "Hc" in
  assert (i = 0 \/ i = 1 \/ i = 2 \/ i = 3 \/ i = 4 \/ i = 5 \/ i = 6 \/ i = 7)%Z
    as Hc by lia;
  destruct Hc as [->|[->|[->|[->|[->|[->|[->| ->]]]]]]].

(** X1. A camera switch turns the old camera off first. When [set_sensor]
    respawns (the manager has no sensor index yet, or the respawn is
    forced), with the transform index within the table: the old camera
    actor, if there is one, is destroyed, the surface dropped and every
    camera switched off before anything is spawned; then a camera is
    spawned at the row of the transform index, that camera alone is
    switched on, the HUD is notified and the listener attached; the sensor
    index becomes 0 whatever index was asked for. *)
Theorem set_sensor_respawns (cm : CameraManager.t) (i : Z) (force : bool) :
  (0 <= CameraManager.transform_index cm < 8)%Z ->
  CameraManager.index cm = None \/ force = true ->
  CameraManager.set_sensor (Some i) force cm =
    (Val tt,
     CameraManager.mk
       (Some (camera_row (CameraManager.transform_index cm)))
       (match CameraManager.sensor cm with
        | Some _ => None
        | None => CameraManager.surface cm
        end)
       (CameraManager.recording cm)
       (CameraManager.transform_index cm)
       (Some 0%Z),
     (match CameraManager.sensor cm with
      | Some _ => [sensor_destroy; set_camera_state carla.All false]
      | None => []
      end)
     ++ [spawn_actor "sensor.camera.rgb" (camera_row (CameraManager.transform_index cm));
         set_camera_state
           (row_position (camera_row (CameraManager.transform_index cm))) true;
         camera_notification
           (ChangingTo (row_position (camera_row (CameraManager.transform_index cm))));
         sensor_listen]).
Proof.
  destruct cm as [s sf r ti idx]; cbn [CameraManager.transform_index
    CameraManager.index CameraManager.sensor CameraManager.surface
    CameraManager.recording].
  intros Hti Hresp. unfold CameraManager.set_sensor.
  change (Z.of_nat (length CameraManager.sensors)) with 1%Z. rewrite Z.mod_1_r.
  row_cases ti; destruct s, idx as [old|], force, Hresp as [Hr|Hr];
    try discriminate Hr; reflexivity.
Qed.

(** A manager without a camera yet, at row 3. *)
Lemma set_sensor_respawns_witness :
  let cm := CameraManager.set_transform_index 3 CameraManager.__init__ in
  (0 <= CameraManager.transform_index cm < 8)%Z
  /\ (CameraManager.set_sensor (Some 0%Z) false cm).2
     = [spawn_actor "sensor.camera.rgb" (mkCameraRow carla.Right "RightCamera");
        set_camera_state carla.Right true;
        camera_notification (ChangingTo carla.Right); sensor_listen].
Proof.
  intros cm.
  assert (H1 : (0 <= CameraManager.transform_index cm < 8)%Z) by (cbn; lia).
  split; [exact H1|].
  rewrite (set_sensor_respawns cm 0 false H1 (or_introl eq_refl)). reflexivity.
Defined.

(** X2. There is one sensor to select. On a manager whose sensor index is 0,
    [set_sensor] without a forced respawn does nothing at all, whatever
    index it is given, negative and out-of-range ones included: no call is
    made and the manager is unchanged. *)
Theorem set_sensor_keeps (cm : CameraManager.t) (i : Z) :
  CameraManager.index cm = Some 0%Z ->
  CameraManager.set_sensor (Some i) false cm = (Val tt, cm, []).
Proof.
  destruct cm as [s sf r ti idx]; cbn [CameraManager.index]. intros ->.
  unfold CameraManager.set_sensor.
  change (Z.of_nat (length CameraManager.sensors)) with 1%Z. rewrite Z.mod_1_r.
  reflexivity.
Qed.

Lemma set_sensor_keeps_witness :
  let cm := (CameraManager.set_sensor (Some 0%Z) false CameraManager.__init__).1.2 in
  CameraManager.index cm = Some 0%Z
  /\ CameraManager.set_sensor (Some (-7)%Z) false cm = (Val tt, cm, []).
Proof.
  intros cm.
  assert (H1 : CameraManager.index cm = Some 0%Z) by reflexivity.
  split; [exact H1|]. exact (set_sensor_keeps cm (-7) H1).
Defined.

Ltac open_live w H :=
  let p := fresh "p" in let cm := fresh "cm" in
  let s := fresh "s" in let sf := fresh "sf" in let r := fresh "r" in
  let ti := fresh "ti" in let idx := fresh "idx" in
  let Hp := fresh "Hp" in let Hcm := fresh "Hcm" in let Hidx := fresh "Hidx" in
  let Hti := fresh "Hti" in let Hs := fresh "Hs" in
  destruct w as [p ?]; destruct H as (Hp & cm & Hcm & Hidx & Hti & Hs);
  cbn [WorldCamera.player WorldCamera.camera_manager] in Hp, Hcm;
  subst; destruct cm as [s sf r ti idx];
  cbn [CameraManager.index CameraManager.transform_index CameraManager.sensor] in Hidx, Hti, Hs;
  subst; row_cases ti.

Ltac show_live :=
  split; [reflexivity|]; eexists; split; [reflexivity|];
  split; [reflexivity|];
  split; [first [cbn; lia | vm_compute; split; [discriminate | reflexivity]]
         | reflexivity].

Ltac run_keyup :=
  match goal with
  | |- context [WorldCamera.keyup ?a ?b ?c ?w] =>
      let v := eval vm_compute in (WorldCamera.keyup a b c w) in
      change (WorldCamera.keyup a b c w) with v; cbv beta iota
  end.

(** One key release keeps the camera live, unless it is a respawn that
    fails, which raises [ValueError]. *)
Lemma keyup_live (k : WorldCamera.KeyUp) (w : WorldCamera.t) :
  camera_live w ->
  match WorldCamera.keyup (WorldCamera.up_shift k) (WorldCamera.up_spawn_ok k)
          (WorldCamera.up_key k) w with
  | (Val _, w', _) => camera_live w' /\ failed_respawn k = false
  | (Exc e, _, _) => e = ValueError /\ failed_respawn k = true
  end.
Proof.
  intros Hlive. destruct k as [key shift ok].
  cbn [WorldCamera.up_key WorldCamera.up_shift WorldCamera.up_spawn_ok].
  destruct key;
    try (unfold WorldCamera.keyup, ret; split; [exact Hlive | reflexivity]).
  - (* K_BACKSPACE *)
    open_live w Hlive; destruct ok; run_keyup;
      first [split; [show_live | reflexivity] | split; reflexivity].
  - (* K_TAB *)
    open_live w Hlive; destruct shift; run_keyup; split; solve [show_live | reflexivity].
  - (* K_p *)
    open_live w Hlive; run_keyup; split; solve [show_live | reflexivity].
  - (* K_r *)
    open_live w Hlive; run_keyup; split; solve [show_live | reflexivity].
Qed.

(** X3. Camera safety. Starting with a live camera, any sequence of key
    releases runs to the end and leaves the camera live, or stops with
    [ValueError] at a respawn that fails; nothing else is ever raised. *)
Theorem camera_keys_safe (ks : list WorldCamera.KeyUp) (w : WorldCamera.t) :
  camera_live w ->
  match WorldCamera.keyups ks w with
  | (Val _, w', _) => camera_live w' /\ existsb failed_respawn ks = false
  | (Exc e, _, _) => e = ValueError /\ existsb failed_respawn ks = true
  end.
Proof.
  revert w; induction ks as [|k ks IH]; intros w Hlive.
  - cbn. split; [exact Hlive | reflexivity].
  - cbn [WorldCamera.keyups existsb]. unfold bind.
    pose proof (keyup_live k w Hlive) as Hk.
    destruct (WorldCamera.keyup _ _ _ w) as [[[[]|e] w1] out1].
    + destruct Hk as [Hlive1 ->]. specialize (IH w1 Hlive1).
      destruct (WorldCamera.keyups ks w1) as [[[[]|e] w2] out2]; exact IH.
    + destruct Hk as [-> ->]. split; reflexivity.
Qed.

(** The world as [World()] leaves it when the vehicle spawns, then a run of
    keys that ends in a failed respawn. *)
Lemma camera_keys_safe_witness :
  let w := (WorldCamera.__init__ true).1.2 in
  let ks := [WorldCamera.mkKeyUp K_TAB true true; WorldCamera.mkKeyUp K_p false true;
             WorldCamera.mkKeyUp K_BACKSPACE false false;
             WorldCamera.mkKeyUp K_TAB false true] in
  camera_live w
  /\ (WorldCamera.keyups ks w).1.1 = Exc ValueError.
Proof.
  intros w ks.
  assert (Hlive : camera_live w) by (subst w; show_live).
  split; [exact Hlive|].
  pose proof (camera_keys_safe ks w Hlive) as Hsafe.
  destruct (WorldCamera.keyups ks w) as [[[[]|e] w1] out1].
  - destruct Hsafe as [_ Hno]. discriminate Hno.
  - destruct Hsafe as [-> _]. reflexivity.
Defined.

Lemma tab_release_steps (reverse ok : bool) (w : WorldCamera.t) :
  camera_live w ->
  exists w',
    WorldCamera.keyup reverse ok K_TAB w =
      (Val tt, w',
       [sensor_destroy; set_camera_state carla.All false]
       ++ spawn_calls ((transform_of w + (if reverse then -1 else 1)) mod 8)%Z)
    /\ camera_live w'
    /\ transform_of w' = ((transform_of w + (if reverse then -1 else 1)) mod 8)%Z
    /\ recording_of w' = recording_of w
    /\ surface_of w' = None.
Proof.
  intros Hlive. open_live w Hlive; destruct reverse; run_keyup;
    (eexists; split; [reflexivity|]; split; [show_live|]; repeat split).
Qed.

(** X4. The camera cycles. With a live camera, any sequence of TAB releases,
    forward or (with shift) backward, never fails, makes six calls per
    release, and leaves the transform index at the old index plus the net
    number of forward steps, modulo the eight rows: the index never leaves
    the table, eight steps in one direction come back to the same camera,
    and a backward step undoes a forward one. The recording flag is kept. *)
Theorem camera_tab_cycles (reverses : list bool) (w : WorldCamera.t) :
  camera_live w ->
  exists w' out,
    WorldCamera.keyups (tab_releases reverses) w = (Val tt, w', out)
    /\ camera_live w'
    /\ transform_of w' = ((transform_of w + net_steps reverses) mod 8)%Z
    /\ (0 <= transform_of w' < 8)%Z
    /\ recording_of w' = recording_of w
    /\ length out = (6 * length reverses)%nat.
Proof.
  revert w; induction reverses as [|reverse reverses IH]; intros w Hlive.
  - exists w, []. split; [reflexivity|]. split; [exact Hlive|].
    assert (Hr : (0 <= transform_of w < 8)%Z).
    { destruct Hlive as (_ & cm & Hcm & _ & Hti & _). unfold transform_of.
      rewrite Hcm. exact Hti. }
    cbn [net_steps fold_right]. rewrite Z.add_0_r, Z.mod_small by exact Hr.
    repeat split; try reflexivity; lia.
  - destruct (tab_release_steps reverse true w Hlive)
      as (w1 & Hk & Hlive1 & Hti1 & Hrec1 & _).
    destruct (IH w1 Hlive1) as (w2 & out2 & Hks & Hlive2 & Hti2 & Hr2 & Hrec2 & Hlen2).
    cbn [tab_releases map WorldCamera.keyups WorldCamera.up_shift
         WorldCamera.up_spawn_ok WorldCamera.up_key].
    unfold bind. rewrite Hk. fold (tab_releases reverses). rewrite Hks.
    do 2 eexists. split; [reflexivity|]. split; [exact Hlive2|].
    split; [|split; [exact Hr2|split; [congruence|]]].
    + rewrite Hti2, Hti1. cbn [net_steps fold_right]. fold (net_steps reverses).
      rewrite Zplus_mod_idemp_l. f_equal. lia.
    + rewrite length_app, Hlen2. cbn. lia.
Qed.

(** From the start-up camera: forward, forward, back, and then five more
    forward steps to complete the round. *)
Lemma camera_tab_cycles_witness :
  let w := (WorldCamera.__init__ true).1.2 in
  camera_live w
  /\ exists w' out,
       WorldCamera.keyups
         (tab_releases [false; false; true; false; false; false; false; false; false; false]) w
         = (Val tt, w', out)
       /\ transform_of w' = transform_of w.
Proof.
  intros w.
  assert (Hlive : camera_live w) by (subst w; show_live).
  split; [exact Hlive|].
  destruct (camera_tab_cycles
              [false; false; true; false; false; false; false; false; false; false]
              w Hlive) as (w' & out & Hks & _ & Hti & _).
  exists w', out. split; [exact Hks|]. rewrite Hti. reflexivity.
Defined.

(** X5. Restarting keeps the camera position and stops image recording. With
    a live camera, BACKSPACE with a vehicle that spawns destroys the old
    camera and vehicle, spawns the camera again at the same row, and leaves
    a live camera with the same transform index, but with the recording flag
    off and no surface, whatever they were. *)
Theorem restart_keeps_camera_row (w : WorldCamera.t) :
  camera_live w ->
  exists w',
    WorldCamera.restart true w =
      (Val tt, w',
       [set_presetid; sensor_stop; sensor_destroy; player_destroy; try_spawn_actor]
       ++ spawn_calls (transform_of w) ++ [world_tick])
    /\ camera_live w'
    /\ transform_of w' = transform_of w
    /\ recording_of w' = false
    /\ surface_of w' = None.
Proof.
  intros Hlive. open_live w Hlive;
    (eexists; split; [vm_compute; reflexivity|]; split; [show_live|]; repeat split).
Qed.

(** A live camera that is recording. *)
Lemma restart_keeps_camera_row_witness :
  let w := (WorldCamera.keyups [WorldCamera.mkKeyUp K_TAB false true;
                                WorldCamera.mkKeyUp K_r false true]
              (WorldCamera.__init__ true).1.2).1.2 in
  camera_live w /\ recording_of w = true
  /\ exists w', (WorldCamera.restart true w).1 = (Val tt, w')
       /\ transform_of w' = 1%Z /\ recording_of w' = false.
Proof.
  intros w.
  assert (Hlive : camera_live w) by (subst w; show_live).
  split; [exact Hlive|]. split; [reflexivity|].
  destruct (restart_keeps_camera_row w Hlive) as (w' & Hr & _ & Hti & Hrec & _).
  exists w'. rewrite Hr. split; [reflexivity|]. split; [rewrite Hti; reflexivity | exact Hrec].
Defined.

(** X6. Replaying keeps the camera. With a live camera, the P key destroys
    the camera actor and spawns it again at the same row, without switching
    the cameras off in between; the transform index, the recording flag and
    the last surface are kept. *)
Theorem replay_keeps_camera (shift ok : bool) (w : WorldCamera.t) :
  camera_live w ->
  exists w',
    WorldCamera.keyup shift ok K_p w =
      (Val tt, w', sensor_destroy :: spawn_calls (transform_of w))
    /\ camera_live w'
    /\ w' = w.
Proof.
  intros Hlive. open_live w Hlive; run_keyup;
    (eexists; split; [reflexivity|]; split; [show_live | reflexivity]).
Qed.

Lemma replay_keeps_camera_witness :
  let w := (WorldCamera.__init__ true).1.2 in
  camera_live w
  /\ (WorldCamera.keyup false true K_p w).1 = (Val tt, w).
Proof.
  intros w.
  assert (Hlive : camera_live w) by (subst w; show_live).
  split; [exact Hlive|].
  destruct (replay_keeps_camera false true w Hlive) as (w' & Hk & _ & ->).
  rewrite Hk. reflexivity.
Defined.

(** X7. A cleared camera index makes the camera keys raise. After
    [destroy_sensors] on a live camera, which makes one call and clears the
    sensor and its index: a second [destroy_sensors] raises
    [AttributeError]; TAB raises [TypeError], after it has moved the
    transform index and before any call; BACKSPACE raises [TypeError] after
    the vehicle was destroyed and spawned again. *)
Theorem cleared_camera_index_raises (reverse : bool) (w : WorldCamera.t) :
  camera_live w ->
  exists w1,
    WorldCamera.destroy_sensors w = (Val tt, w1, [sensor_destroy])
    /\ transform_of w1 = transform_of w
    /\ WorldCamera.destroy_sensors w1 = (Exc AttributeError, w1, [])
    /\ (exists w2,
          WorldCamera.keyup reverse true K_TAB w1 = (Exc TypeError, w2, [])
          /\ transform_of w2
             = ((transform_of w + (if reverse then -1 else 1)) mod 8)%Z)
    /\ (exists w3,
          WorldCamera.keyup reverse true K_BACKSPACE w1
            = (Exc TypeError, w3, [set_presetid; player_destroy; try_spawn_actor])).
Proof.
  intros Hlive. open_live w Hlive; destruct reverse;
    (eexists; split; [vm_compute; reflexivity|]; split; [reflexivity|];
     split; [vm_compute; reflexivity|];
     split; eexists; [split; [vm_compute; reflexivity | reflexivity]
                     | vm_compute; reflexivity]).
Qed.

Lemma cleared_camera_index_raises_witness :
  let w := (WorldCamera.__init__ true).1.2 in
  camera_live w
  /\ exists w1, (WorldCamera.destroy_sensors w).1 = (Val tt, w1)
       /\ (WorldCamera.keyup false true K_TAB w1).1.1 = Exc TypeError.
Proof.
  intros w.
  assert (Hlive : camera_live w) by (subst w; show_live).
  split; [exact Hlive|].
  destruct (cleared_camera_index_raises false w Hlive)
    as (w1 & Hd & _ & _ & (w2 & Ht & _) & _).
  exists w1. rewrite Hd, Ht. split; reflexivity.
Defined.

(** ** Camera images *)

Lemma four_bytes (l : list Byte.byte) (k : nat) :
  (k + 4 <= length l)%nat ->
  exists b0 b1 b2 b3 rest,
    skipn k l = b0 :: b1 :: b2 :: b3 :: rest
    /\ l !! k = Some b0 /\ l !! (k + 1)%nat = Some b1
    /\ l !! (k + 2)%nat = Some b2 /\ l !! (k + 3)%nat = Some b3.
Proof.
  intros Hlen.
  assert (Hd : (4 <= length (skipn k l))%nat) by (rewrite length_skipn; lia).
  assert (Hl : forall i, skipn k l !! i = l !! (k + i)%nat)
    by (intros i; apply lookup_drop).
  destruct (skipn k l) as [|b0 [|b1 [|b2 [|b3 rest]]]]; cbn in Hd; try lia.
  exists b0, b1, b2, b3, rest. split; [reflexivity|].
  pose proof (Hl 0%nat) as E0. rewrite Nat.add_0_r in E0.
  rewrite <- E0, <- (Hl 1%nat), <- (Hl 2%nat), <- (Hl 3%nat).
  repeat split; reflexivity.
Qed.

(** X8. Image conversion. For a manager whose sensor index is 0 and an image
    whose buffer has four bytes per pixel, [_parse_image] converts the image
    and stores a surface of [width] columns of [height] pixels in which the
    pixel at column [x], row [y] is the bytes 2, 1, 0 of the buffer's pixel
    [y * width + x]: BGRA becomes RGB, the fourth byte is dropped and rows
    and columns are swapped. Nothing else of the manager changes, and the
    image is saved to disk exactly when the manager is recording. *)
Theorem parse_image_pixels (cm : CameraManager.t) (image : Image) :
  CameraManager.index cm = Some 0%Z ->
  length (raw_data image) = (height image * width image * 4)%nat ->
  exists surf,
    CameraManager._parse_image image (Some cm) =
      (Val tt, Some (CameraManager.set_surface (Some surf) cm),
       image_convert :: (if CameraManager.recording cm
                         then [save_to_disk (frame image)] else []))
    /\ length surf = width image
    /\ forall x y, (x < width image)%nat -> (y < height image)%nat ->
         exists column b g r,
           surf !! x = Some column
           /\ length column = height image
           /\ raw_data image !! (4 * (y * width image + x))%nat = Some b
           /\ raw_data image !! (4 * (y * width image + x) + 1)%nat = Some g
           /\ raw_data image !! (4 * (y * width image + x) + 2)%nat = Some r
           /\ column !! y = Some [r; g; b].
Proof.
  intros Hidx Hlen. destruct image as [raw h w fr]. cbn [raw_data height width frame] in *.
  eexists. split; [|split].
  - unfold CameraManager._parse_image, bind, lift, call, CameraManager.modify, ret, get.
    rewrite Hidx. cbn [py_index CameraManager.sensors length Z.of_nat].
    unfold CameraManager.reshape. cbn [raw_data height width frame].
    rewrite Hlen, Nat.eqb_refl.
    destruct (CameraManager.recording cm) eqn:Hrec; cbn; rewrite ?Hrec; reflexivity.
  - unfold CameraManager.swapaxes. rewrite length_map, length_seq. reflexivity.
  - intros x y Hx Hy.
    assert (Hk : ((y * w + x) * 4 + 4 <= length raw)%nat) by nia.
    destruct (four_bytes raw ((y * w + x) * 4) Hk)
      as (b0 & b1 & b2 & b3 & rest & Hskip & H0 & H1 & H2 & H3).
    replace (4 * (y * w + x))%nat with ((y * w + x) * 4)%nat by lia.
    eexists _, b0, b1, b2.
    split; [|split; [|split; [exact H0|split; [exact H1|split; [exact H2|]]]]].
    + unfold CameraManager.swapaxes. rewrite list_lookup_fmap, lookup_seq_lt by lia.
      reflexivity.
    + rewrite !length_map, length_seq. reflexivity.
    + cbn [Nat.add]. rewrite !list_lookup_fmap, lookup_seq_lt by lia.
      cbn [fmap option_fmap option_map Nat.add].
      erewrite nth_lookup_Some.
      2: { rewrite !list_lookup_fmap, lookup_seq_lt by lia. reflexivity. }
      cbn [Nat.add]. rewrite Hskip. reflexivity.
Qed.

(** A recording manager and a 2 x 1 image: the two pixels come out as two
    columns with their first three bytes reversed. *)
Lemma parse_image_pixels_witness :
  let cm := CameraManager.mk None None true 0 (Some 0%Z) in
  let image := mkImage [Byte.x01; Byte.x02; Byte.x03; Byte.xff;
                        Byte.x0a; Byte.x0b; Byte.x0c; Byte.xff] 1 2 7 in
  CameraManager.index cm = Some 0%Z
  /\ length (raw_data image) = (height image * width image * 4)%nat
  /\ exists surf column,
       (CameraManager._parse_image image (Some cm)).2 = [image_convert; save_to_disk 7]
       /\ (CameraManager._parse_image image (Some cm)).1.2
          = Some (CameraManager.set_surface (Some surf) cm)
       /\ surf !! 1%nat = Some column
       /\ column !! 0%nat = Some [Byte.x0c; Byte.x0b; Byte.x0a].
Proof.
  intros cm image.
  assert (H1 : CameraManager.index cm = Some 0%Z) by reflexivity.
  assert (H2 : length (raw_data image) = (height image * width image * 4)%nat)
    by reflexivity.
  split; [exact H1|]. split; [exact H2|].
  destruct (parse_image_pixels cm image H1 H2) as (surf & Hrun & _ & Hpix).
  destruct (Hpix 1%nat 0%nat) as (column & b & g & r & Hc & _ & Hb & Hg & Hr & Hp).
  - cbn. lia.
  - cbn. lia.
  - exists surf, column. rewrite Hrun. split; [reflexivity|]. split; [reflexivity|].
    split; [exact Hc|]. rewrite Hp.
    cbn in Hb, Hg, Hr. congruence.
Defined.

(** X9. When [_parse_image] does nothing or fails. A collected manager makes
    the callback return without a call. A manager whose sensor index is
    [None] raises [TypeError] before the image is touched. A buffer whose
    length is not [height * width * 4] raises [ValueError] after the
    conversion call, and the manager, with its old surface, is as before;
    nothing is saved to disk. *)
Theorem parse_image_failures (cm : CameraManager.t) (image : Image) :
  length (raw_data image) <> (height image * width image * 4)%nat ->
  CameraManager._parse_image image None = (Val tt, None, [])
  /\ CameraManager._parse_image image (Some (CameraManager.set_index None cm))
     = (Exc TypeError, Some (CameraManager.set_index None cm), [])
  /\ CameraManager._parse_image image (Some (CameraManager.set_index (Some 0%Z) cm))
     = (Exc ValueError, Some (CameraManager.set_index (Some 0%Z) cm), [image_convert]).
Proof.
  intros Hlen. split; [reflexivity|]. split; [reflexivity|].
  unfold CameraManager._parse_image, bind, lift, call, CameraManager.modify, ret, get.
  cbn [CameraManager.index CameraManager.set_index py_index
       CameraManager.sensors length Z.of_nat].
  unfold CameraManager.reshape.
  destruct (Nat.eqb_spec (length (raw_data image)) (height image * width image * 4));
    [contradiction|]. reflexivity.
Qed.

(** A buffer one byte short. *)
Lemma parse_image_failures_witness :
  let cm := CameraManager.mk None (Some [[[Byte.x00; Byte.x00; Byte.x00]]]) true 0 (Some 0%Z) in
  let image := mkImage [Byte.x01; Byte.x02; Byte.x03] 1 1 0 in
  length (raw_data image) <> (height image * width image * 4)%nat
  /\ CameraManager._parse_image image (Some cm) = (Exc ValueError, Some cm, [image_convert]).
Proof.
  intros cm image.
  assert (H1 : length (raw_data image) <> (height image * width image * 4)%nat)
    by discriminate.
  split; [exact H1|].
  exact (proj2 (proj2 (parse_image_failures cm image H1))).
Defined.

(** ** The HUD *)







Lemma render_lines_in_window (height v : Z) (k : nat) (items info : list string) :
  v = (4 + 18 * Z.of_nat k)%Z ->
  (forall i item, items !! i = Some item -> info !! (k + i)%nat = Some item) ->
  Forall (line_in_window height info) (HUD.render_lines height v items).
Proof.
  revert v k; induction items as [|item items IH]; intros v k Hv Hinfo; cbn.
  - constructor.
  - destruct (Z.ltb_spec height (v + 18)) as [Hout|Hfit]; [constructor|].
    apply Forall_app. split.
    + destruct (String.eqb_spec item ""); constructor; [|constructor].
      cbn. split; [assumption|]. split; [lia|].
      exists k. split; [|exact Hv].
      rewrite <- (Nat.add_0_r k). apply Hinfo. reflexivity.
    + apply (IH (v + 18)%Z (S k)); [lia|].
      intros i it Hi. replace (S k + i)%nat with (k + S i)%nat by lia.
      apply Hinfo. exact Hi.
Qed.

Lemma render_lines_complete (height v : Z) (items : list string) :
  (v + 18 * Z.of_nat (length items) <= height)%Z ->
  forall (i : nat) item, items !! i = Some item -> item <> ""%string ->
    In (HUD.blit_text (v + 18 * Z.of_nat i) item) (HUD.render_lines height v items).
Proof.
  revert v; induction items as [|it items IH]; intros v Hfit i item Hi Hne;
    [discriminate Hi|].
  cbn [length] in Hfit. cbn [HUD.render_lines].
  destruct (Z.ltb_spec height (v + 18)) as [Hout|_]; [lia|].
  apply in_or_app. destruct i as [|i].
  - left. injection Hi as ->. destruct (String.eqb_spec item ""); [contradiction|].
    left. f_equal. lia.
  - right. replace (v + 18 * Z.of_nat (S i))%Z with ((v + 18) + 18 * Z.of_nat i)%Z by lia.
    apply IH; [lia | exact Hi | exact Hne].
Qed.

(** X11. The info panel stays inside the window. Every text line [render]
    draws is a non-empty item of the info text, drawn at offset
    [4 + 18 * i] for its position [i], and ends at or above the bottom of
    the window; when the whole text fits, every non-empty item is drawn;
    when the panel is hidden only the notification is drawn. Any number
    type. *)
Theorem hud_render_fits {A : Type} `{PyNum A} (self : HUD.t A) :
  Forall (line_in_window (HUD.dim self).2 (HUD._info_text self)) (HUD.render self)
  /\ (HUD._show_info self = false -> HUD.render self = [HUD.blit_notification])
  /\ (HUD._show_info self = true ->
      (4 + 18 * Z.of_nat (length (HUD._info_text self)) <= (HUD.dim self).2)%Z ->
      forall (i : nat) item,
        HUD._info_text self !! i = Some item -> item <> ""%string ->
        In (HUD.blit_text (4 + 18 * Z.of_nat i) item) (HUD.render self)).
Proof.
  unfold HUD.render. split; [|split].
  - destruct (HUD._show_info self); apply Forall_app; split;
      repeat constructor.
    apply (render_lines_in_window _ 4 0); [reflexivity|].
    intros i item Hi. exact Hi.
  - intros ->. reflexivity.
  - intros -> Hfit i item Hi Hne. apply in_or_app. left. right.
    apply render_lines_complete; assumption.
Qed.

(** ** Events, quitting and the recorder *)

Section EventFacts.
Context {A : Type} `{PyNum A}.

Lemma recorder_after_app (on : bool) (out out' : list (Command A)) :
  recorder_after on (out ++ out') = recorder_after (recorder_after on out) out'.
Proof. unfold recorder_after. apply fold_left_app. Qed.

Lemma keyup_world_facts shift key (w : World) :
  recorder_after (recording_enabled w) (keyup_world (A:=A) shift key w).2
    = recording_enabled (keyup_world (A:=A) shift key w).1
  /\ Forall (fun c => is_actuator c = false) (keyup_world (A:=A) shift key w).2.
Proof.
  destruct key; cbn; try (split; [reflexivity | repeat constructor]).
  destruct (recording_enabled w); cbn; split; try reflexivity; repeat constructor.
Qed.

Lemma keyup_radiator_facts key (on : bool) :
  recorder_after on (keyup_radiator (A:=A) key) = on
  /\ Forall (fun c => is_actuator c = false) (keyup_radiator (A:=A) key).
Proof. destruct key; cbn; split; try reflexivity; repeat constructor. Qed.

Lemma toggle_light_facts shift sensor (self self' : KeyboardControl A) out (on : bool) :
  toggle_light shift sensor self = Return (self', out) ->
  recorder_after on out = on
  /\ Forall (fun c => is_actuator c = false) out
  /\ (forall ch, value ch self' = value ch self)
  /\ constants self' = constants self.
Proof.
  unfold toggle_light. destruct (lights_value self !! sensor); [|discriminate].
  intros [= <- <-]. split; [reflexivity|]. split; [repeat constructor|].
  split; [intros []; reflexivity | reflexivity].
Qed.

(** What every returning event handler does: it asks to quit exactly on a
    quit event, leaves channels and constants alone, sends no actuator
    command, and keeps [recording_enabled] in step with the recorder. *)
Lemma handle_event_returns shift ev (st st' : State A) quit out :
  handle_event shift ev st = Return (quit, st', out) ->
  quit = quits ev
  /\ (forall ch, value ch (controller st') = value ch (controller st))
  /\ constants (controller st') = constants (controller st)
  /\ Forall (fun c => is_actuator c = false) out
  /\ recorder_after (recording_enabled (world st)) out = recording_enabled (world st')
  /\ (quit = true -> st' = st /\ out = []).
Proof.
  destruct ev as [|key|]; cbn [handle_event quits].
  - intros [= <- <- <-]. repeat split; constructor.
  - destruct (_is_quit_shortcut key) eqn:Hq.
    { intros [= <- <- <-]. repeat split; constructor. }
    pose proof (keyup_world_facts shift key (world st)) as [Hrec1 Hact1].
    destruct (keyup_world shift key (world st)) as [w out1]. cbn [fst snd] in Hrec1, Hact1.
    pose proof (keyup_radiator_facts key (recording_enabled w)) as [Hrec2 Hact2].
    destruct (sensor_of_key key) as [sensor|].
    + destruct (toggle_light shift sensor (controller st)) as [[self' out3]|] eqn:Ht;
        [|discriminate].
      destruct (toggle_light_facts _ _ _ _ _ (recording_enabled w) Ht)
        as (Hrec3 & Hact3 & Hval & Hc).
      intros [= <- <- <-]. cbn [controller world].
      split; [reflexivity|]. split; [exact Hval|]. split; [exact Hc|].
      split; [repeat (apply Forall_app; split); assumption|].
      split; [|discriminate].
      rewrite !recorder_after_app, Hrec1, Hrec2, Hrec3. reflexivity.
    + intros [= <- <- <-]. cbn [controller world].
      split; [reflexivity|]. split; [reflexivity|]. split; [reflexivity|].
      split; [apply Forall_app; split; assumption|].
      split; [|discriminate].
      rewrite recorder_after_app, Hrec1, Hrec2. reflexivity.
  - intros [= <- <- <-]. repeat split; try constructor; try discriminate.
Qed.

Lemma event_loop_returns shift evs (st st' : State A) quit out :
  event_loop shift evs st = Return (quit, st', out) ->
  quit = existsb quits evs
  /\ (forall ch, value ch (controller st') = value ch (controller st))
  /\ constants (controller st') = constants (controller st)
  /\ Forall (fun c => is_actuator c = false) out
  /\ recorder_after (recording_enabled (world st)) out = recording_enabled (world st').
Proof.
  revert st st' quit out; induction evs as [|ev evs IH]; intros st st' quit out;
    cbn [event_loop existsb].
  - intros [= <- <- <-]. repeat split; constructor.
  - destruct (handle_event shift ev st) as [[[q1 st1] out1]|] eqn:Hev; [|discriminate].
    destruct (handle_event_returns _ _ _ _ _ _ Hev) as (Hq & Hv1 & Hc1 & Ha1 & Hr1 & _).
    rewrite <- Hq. destruct q1.
    + intros [= <- <- <-]. repeat split; assumption.
    + destruct (event_loop shift evs st1) as [[[q2 st2] out2]|] eqn:Hloop; [|discriminate].
      destruct (IH _ _ _ _ Hloop) as (Hq2 & Hv2 & Hc2 & Ha2 & Hr2).
      intros [= <- <- <-]. cbn [orb].
      split; [exact Hq2|]. split; [intros ch; rewrite Hv2; apply Hv1|].
      split; [congruence|]. split; [apply Forall_app; split; assumption|].
      rewrite recorder_after_app, Hr1. exact Hr2.
Qed.

(** Events queued behind a quit event are not looked at. *)
Lemma event_loop_stops_at_quit shift pre e post (st : State A) :
  existsb quits pre = false -> quits e = true ->
  event_loop shift (pre ++ e :: post) st =
    match event_loop shift pre st with
    | Return (_, st', out) => Return (true, st', out)
    | KeyError => KeyError
    end.
Proof.
  intros Hpre He. revert st. induction pre as [|ev pre IH]; intros st.
  - cbn [app event_loop].
    destruct e as [|key|]; cbn in He |- *; try discriminate; [reflexivity|].
    rewrite He. reflexivity.
  - cbn [existsb] in Hpre. apply orb_false_iff in Hpre as [Hev Hpre].
    cbn [app event_loop].
    destruct (handle_event shift ev st) as [[[q1 st1] out1]|] eqn:E1; [|reflexivity].
    destruct (handle_event_returns _ _ _ _ _ _ E1) as (Hq & _). rewrite Hev in Hq. subst q1.
    rewrite (IH Hpre st1).
    destruct (event_loop shift pre st1) as [[[q2 st2] out2]|]; reflexivity.
Qed.

End EventFacts.

(** X12. A quit ends the frame at once. When the first quit event of a frame
    (window close, ESC or Q released) comes after events [pre], the call of
    [parse_events] returns [True] with the state and the calls of [pre]
    alone: the events queued behind it and the held keys have no effect, no
    channel is ramped and no actuator command is sent. Any number type. *)
Theorem quit_ends_the_frame {A : Type} `{PyNum A} (shift : bool)
    (pre post : list Event) (e : Event) (keys : Key -> bool) (st : State A) :
  existsb quits pre = false -> quits e = true ->
  parse_events (mkFrame (pre ++ e :: post) shift keys) st =
    match event_loop shift pre st with
    | Return (_, st', out) => Return (true, st', out)
    | KeyError => KeyError
    end
  /\ match parse_events (mkFrame (pre ++ e :: post) shift keys) st with
     | Return (quit, st', out) =>
         quit = true
         /\ (forall ch, value ch (controller st') = value ch (controller st))
         /\ Forall (fun c => is_actuator c = false) out
     | KeyError => True
     end.
Proof.
  intros Hpre He.
  assert (Heq : parse_events (mkFrame (pre ++ e :: post) shift keys) st =
    match event_loop shift pre st with
    | Return (_, st', out) => Return (true, st', out)
    | KeyError => KeyError
    end).
  { unfold parse_events. cbn [events mods_shift].
    rewrite (event_loop_stops_at_quit shift pre e post st Hpre He).
    destruct (event_loop shift pre st) as [[[q st'] out]|]; reflexivity. }
  split; [exact Heq|]. rewrite Heq.
  destruct (event_loop shift pre st) as [[[q st'] out]|] eqn:Hloop; [|exact I].
  destruct (event_loop_returns _ _ _ _ _ _ Hloop) as (_ & Hv & _ & Ha & _).
  split; [reflexivity|]. split; assumption.
Qed.

(** A light toggle, then ESC, then a toggle that is never seen, with the
    forward key held. *)
Lemma quit_ends_the_frame_witness :
  existsb quits [KEYUP K_1] = false /\ quits (KEYUP K_ESCAPE) = true
  /\ exists st' out,
       parse_events (A:=Q)
         (mkFrame ([KEYUP K_1] ++ KEYUP K_ESCAPE :: [KEYUP K_2]) false (held [K_UP]))
         initial_state = Return (true, st', out)
       /\ value LinearSpeed (controller st') = value LinearSpeed __init__
       /\ light_after (A:=Q) [] carla.FrontLeft = lights_value (controller st') !! carla.FrontLeft.
Proof.
  assert (H1 : existsb quits [KEYUP K_1] = false) by reflexivity.
  assert (H2 : quits (KEYUP K_ESCAPE) = true) by reflexivity.
  split; [exact H1|]. split; [exact H2|].
  destruct (quit_ends_the_frame (A:=Q) false [KEYUP K_1] [KEYUP K_2] (KEYUP K_ESCAPE)
              (held [K_UP]) initial_state H1 H2) as [Heq _].
  rewrite Heq. do 2 eexists. split; [reflexivity|]. split; reflexivity.
Defined.

Section LoopFacts.
Context {A : Type} `{PyNum A}.

(** An invariant of the state and a relation between a state, the calls
    made from it and the state reached, both kept by [parse_events], carry
    over to the whole loop when the relation composes. *)
Lemma control_loop_relates (J : State A -> Prop)
    (R : State A -> list (Command A) -> State A -> Prop) :
  (forall st, R st [] st) ->
  (forall s1 o1 s2 o2 s3, R s1 o1 s2 -> R s2 o2 s3 -> R s1 (o1 ++ o2) s3) ->
  (forall fr st, J st ->
     exists quit st' out,
       parse_events fr st = Return (quit, st', out) /\ J st' /\ R st out st') ->
  forall frames st, J st ->
    exists st' out, control_loop frames st = Return (st', out) /\ J st' /\ R st out st'.
Proof.
  intros Hrefl Htrans Hstep frames; induction frames as [|fr frames IH];
    intros st HJ; cbn [control_loop].
  - exists st, []. auto.
  - destruct (Hstep fr st HJ) as (quit & st1 & out1 & -> & HJ1 & HR1).
    destruct quit; [eauto|].
    destruct (IH st1 HJ1) as (st2 & out2 & -> & HJ2 & HR2). eauto 6.
Qed.

Lemma frame_commands_no_recorder keys (self : KeyboardControl A) (on : bool) :
  recorder_after on (frame_commands keys self) = on.
Proof.
  unfold frame_commands. cbn [map concat].
  repeat match goal with
         | |- context [if ?b then _ else _] => destruct b
         end; reflexivity.
Qed.

(** How the output of a returning call of [parse_events] is made up. *)
Lemma parse_events_returns fr (st st' : State A) quit out :
  parse_events fr st = Return (quit, st', out) ->
  exists st1 out1,
    event_loop (mods_shift fr) (events fr) st = Return (quit, st1, out1)
    /\ (if quit then st' = st1 /\ out = out1
        else controller st' = (update_channels (keys fr) (controller st1)).1
             /\ world st' = world st1
             /\ out = out1 ++ frame_commands (keys fr) (controller st')).
Proof.
  unfold parse_events.
  destruct (event_loop (mods_shift fr) (events fr) st) as [[[q st1] out1]|]; [|discriminate].
  destruct q.
  - intros [= <- <- <-]. eauto.
  - pose proof (update_channels_commands (keys fr) (controller st1)) as Hout.
    destruct (update_channels (keys fr) (controller st1)) as [self' out'] eqn:Hu.
    cbn [fst snd] in Hout. intros [= <- <- <-]. exists st1, out1.
    split; [reflexivity|]. cbn [controller world]. rewrite Hu, Hout.
    split; [reflexivity|]. split; reflexivity.
Qed.

Lemma parse_events_recorder fr (st st' : State A) quit out :
  parse_events fr st = Return (quit, st', out) ->
  recorder_after (recording_enabled (world st)) out = recording_enabled (world st').
Proof.
  intros Hp. destruct (parse_events_returns _ _ _ _ _ Hp) as (st1 & out1 & Hloop & Hrest).
  destruct (event_loop_returns _ _ _ _ _ _ Hloop) as (_ & _ & _ & _ & Hrec).
  destruct quit.
  - destruct Hrest as [-> ->]. exact Hrec.
  - destruct Hrest as (_ & -> & ->).
    rewrite recorder_after_app, frame_commands_no_recorder. exact Hrec.
Qed.

End LoopFacts.

(** X13. [recording_enabled] tells the truth. Whatever frames the loop runs
    on, when it ends the flag [world.recording_enabled] is on exactly when
    the last recorder call the program made was [start_recorder]; so the
    [finally] block of [game_loop], which stops the recorder exactly when the
    flag is on, never leaves the recorder running and never stops one that
    is not. Any number type. *)
Theorem recorder_flag_mirrors_recorder {A : Type} `{PyNum A}
    (original_settings : bool) (frames : list Frame) :
  exists st out,
    game_loop frames = Return (st, out)
    /\ recorder_after false out = recording_enabled (world st)
    /\ (In final_stop_recorder (finally_block original_settings (Some (world st)))
        <-> recorder_after false out = true).
Proof.
  unfold game_loop.
  destruct (control_loop_relates
              (fun st => consistent (fun _ => True) (controller st))
              (fun st out st' =>
                 recorder_after (recording_enabled (world st)) out
                 = recording_enabled (world st'))) with (frames := frames) (st := initial_state (A:=A))
    as (st & out & -> & _ & Hrec).
  - reflexivity.
  - intros s1 o1 s2 o2 s3 H1 H2. rewrite recorder_after_app, H1. exact H2.
  - intros fr st Hinv.
    destruct (parse_events_consistent (fun _ => True) (fun _ _ _ => I) fr st Hinv)
      as (quit & st' & out & Hp & Hinv' & _).
    exists quit, st', out. split; [exact Hp|]. split; [exact Hinv'|].
    apply (parse_events_recorder _ _ _ _ _ Hp).
  - by apply init_consistent.
  - exists st, (initial_commands ++ out). split; [reflexivity|].
    assert (Hall : recorder_after false (initial_commands ++ out)
                   = recording_enabled (world st)).
    { rewrite recorder_after_app. exact Hrec. }
    split; [exact Hall|]. rewrite Hall. unfold finally_block.
    destruct original_settings, (recording_enabled (world st)); cbn;
      split; intros Hx; try discriminate; try tauto;
      repeat (destruct Hx as [Hx|Hx]; try discriminate); try contradiction.
Qed.

(** ** What reaches the vehicle *)






(** ** Ramping down, and staying at rest *)






Section Rest.
Context {A : Type} `{PyNum A}.
Hypothesis rest_from_int : pymax (lit 0 - lit 2 * lit 0.01)%py (lit 0.0) = lit 0.0.
Hypothesis rest_from_float : pymax (lit 0.0 - lit 2 * lit 0.01)%py (lit 0.0) = lit 0.0.

Lemma drive_idle_keeps_rest (ks : list (Key -> bool)) (self : KeyboardControl A) :
  constants self = constants __init__ ->
  (forall ch, decaying ch = true -> value ch self = lit 0 \/ value ch self = lit 0.0) ->
  Forall drive_idle ks ->
  forall ch, decaying ch = true ->
    value ch (after_frames ks self) = lit 0 \/ value ch (after_frames ks self) = lit 0.0.
Proof using rest_from_int rest_from_float.
  intros Hc Hv Hks. revert self Hc Hv.
  induction Hks as [|keys ks Hk _ IH]; intros self Hc Hv ch Hd; [apply Hv, Hd|].
  change (after_frames (keys :: ks) self)
    with (after_frames ks (update_channels keys self).1).
  apply IH; [by rewrite update_channels_constants| |exact Hd].
  intros ch' Hd'. right.
  assert (Hidle : idle ch' keys) by (destruct Hk; destruct ch'; try discriminate; assumption).
  rewrite (idle_frame_decays ch' keys self Hd' Hidle). unfold decayed.
  destruct (constants_steps ch' _ _ Hc) as [-> _].
  destruct (Hv ch' Hd') as [-> | ->]; destruct ch'; try discriminate; assumption.
Qed.

End Rest.

Lemma rest_values_exact :
  pymax (A:=Q) (lit 0 - lit 2 * lit 0.01)%py (lit 0.0) = lit 0.0
  /\ pymax (A:=Q) (lit 0.0 - lit 2 * lit 0.01)%py (lit 0.0) = lit 0.0.
Proof. split; vm_compute; reflexivity. Qed.

Lemma rest_values_binary64 :
  pymax (A:=float) (lit 0 - lit 2 * lit 0.01)%py (lit 0.0) = lit 0.0
  /\ pymax (A:=float) (lit 0.0 - lit 2 * lit 0.01)%py (lit 0.0) = lit 0.0.
Proof. split; vm_compute; reflexivity. Qed.

(** X16. A rover at rest stays at rest. On a fresh controller, any number of
    frames in which no drive key (arrows, WASD) is held leave the linear and
    the angular speed at zero, whatever other keys are held: in exact
    arithmetic and in binary64, where [0 - 2 * 0.01] is negative and the
    decay clamps it to 0.0. *)
Theorem rest_is_kept (ks : list (Key -> bool)) :
  Forall drive_idle ks ->
  (forall ch, decaying ch = true ->
     (value ch (after_frames ks (__init__ (A:=Q))) == 0)%Q)
  /\ (forall ch, decaying ch = true ->
     value ch (after_frames ks (__init__ (A:=float))) = PrimFloat.zero).
Proof.
  intros Hks. split; intros ch Hd.
  - destruct (drive_idle_keeps_rest (A:=Q) (proj1 rest_values_exact)
                (proj2 rest_values_exact) ks __init__ eq_refl) with (ch := ch)
      as [-> | ->]; try assumption; try reflexivity.
    intros ch' Hd'. left. destruct ch'; try discriminate; reflexivity.
  - destruct (drive_idle_keeps_rest (A:=float) (proj1 rest_values_binary64)
                (proj2 rest_values_binary64) ks __init__ eq_refl) with (ch := ch)
      as [-> | ->]; try assumption; try reflexivity.
    intros ch' Hd'. left. destruct ch'; try discriminate; reflexivity.
Qed.

(** Frames that work the arms and drums only. *)
Lemma rest_is_kept_witness :
  let ks := [held [K_g; K_f]; held []; held [K_n; K_j]] in
  Forall drive_idle ks
  /\ value LinearSpeed (after_frames ks (__init__ (A:=float))) = PrimFloat.zero.
Proof.
  intros ks.
  assert (H1 : Forall drive_idle ks) by (repeat constructor).
  split; [exact H1|].
  exact (proj2 (rest_is_kept ks H1) LinearSpeed eq_refl).
Defined.

(** ** Light levels over several toggles *)





